(** * Datathon_MCP: the hybrid intent resolver and the context manager

    A shallow embedding of [server_withContextManager.js] and
    [context_manager.js], and the properties of the intent-resolution and
    context-assembly pipeline proved (or refuted) on it.

    Modelling conventions.
    - A JavaScript string is a [string]: a sequence of UTF-16 code units, each
      below 256 (the Latin-1 range).  On that range [toLowerCase], [trim],
      [includes] and the regular-expression class [\s] are modelled exactly.
    - A JavaScript value that comes out of [JSON.parse] (or is [undefined]) is
      a [js_value]; numbers are kept to the integers.
    - An object literal used as a lookup table is an association list in
      [Object.keys] order.  A property read [table[key]] on such a literal
      also sees the members inherited from [Object.prototype].
    - [console] output, thrown errors and [try]/[catch] are threaded through a
      small state-and-exception monad, [js]. *)

From Stdlib Require Import String Ascii List Bool NArith ZArith.
From Stdlib Require Import DecimalString Lia.
Import ListNotations.

Local Open Scope list_scope.
Local Open Scope string_scope.

(* ================================================================== *)
(** * The host language: strings *)
(* ================================================================== *)

Module JS.

(** The line feed: the only control character the sources' literals use. *)
Definition LF : string := String (ascii_of_nat 10) EmptyString.

(** Upper-case letters among the code units below 256: [A]-[Z], and the
    Latin-1 capitals U+00C0 - U+00DE without the multiplication sign U+00D7. *)
Definition is_upper (c : ascii) : bool :=
  let n := N_of_ascii c in
  ((65 <=? n) && (n <=? 90) || (192 <=? n) && (n <=? 222) && negb (n =? 215))%N.

(** Each of those letters has its lower-case form 32 code units further. *)
Definition lower_char (c : ascii) : ascii :=
  if is_upper c then ascii_of_N (N_of_ascii c + 32) else c.

(** [String.prototype.toLowerCase]. *)
Fixpoint toLowerCase (s : string) : string :=
  match s with
  | EmptyString => EmptyString
  | String c rest => String (lower_char c) (toLowerCase rest)
  end.

(** [s.startsWith(key)]. *)
Fixpoint startsWith (s key : string) {struct key} : bool :=
  match key, s with
  | EmptyString, _ => true
  | String k key', String c s' => Ascii.eqb k c && startsWith s' key'
  | String _ _, EmptyString => false
  end.

(** [String.prototype.includes]: [key] occurs in [s] at some position. *)
Fixpoint includes (s key : string) : bool :=
  startsWith s key ||
  match s with
  | EmptyString => false
  | String _ rest => includes rest key
  end.

(** White space and line terminators, the characters [\s] matches and [trim]
    strips: TAB, LF, VT, FF, CR, SPACE and NO-BREAK SPACE. *)
Definition is_space (c : ascii) : bool :=
  let n := N_of_ascii c in
  ((9 <=? n) && (n <=? 13) || (n =? 32) || (n =? 160))%N.

Fixpoint trimStart (s : string) : string :=
  match s with
  | String c rest => if is_space c then trimStart rest else s
  | EmptyString => EmptyString
  end.

Fixpoint trimEnd (s : string) : string :=
  match s with
  | EmptyString => EmptyString
  | String c rest =>
      match trimEnd rest with
      | EmptyString => if is_space c then EmptyString else String c EmptyString
      | kept => String c kept
      end
  end.

(** [String.prototype.trim]. *)
Definition trim (s : string) : string := trimEnd (trimStart s).

(** [Array.prototype.join] on an array of strings. *)
Fixpoint join (sep : string) (parts : list string) : string :=
  match parts with
  | [] => EmptyString
  | [p] => p
  | p :: rest => p ++ sep ++ join sep rest
  end.

(** ** The regular expression [/next\s+week/]

    [next], one or more [\s], [week].  The greedy [\s+] needs no
    backtracking here: [week] does not start with white space. *)

(** What follows [key] at the head of [s], when [s] starts with [key]. *)
Fixpoint after_prefix (key s : string) {struct key} : option string :=
  match key, s with
  | EmptyString, _ => Some s
  | String k key', String c s' =>
      if Ascii.eqb k c then after_prefix key' s' else None
  | String _ _, EmptyString => None
  end.

Definition next_week_at (s : string) : bool :=
  match after_prefix "next" s with
  | Some (String c rest) => is_space c && startsWith (trimStart rest) "week"
  | _ => false
  end.

(** [/next\s+week/.test(s)]: a match at some position of [s]. *)
Fixpoint test_next_week (s : string) : bool :=
  next_week_at s ||
  match s with
  | EmptyString => false
  | String _ rest => test_next_week rest
  end.

(** The code units of a string, each as a one-character string: what
    iterating a string yields (there are no surrogate pairs below 256). *)
Fixpoint chars (s : string) : list string :=
  match s with
  | EmptyString => []
  | String c rest => String c EmptyString :: chars rest
  end.

(* ================================================================== *)
(** * The host language: values, errors, console *)
(* ================================================================== *)

(** The values [JSON.parse] builds, and [undefined]. *)
#[warnings="-register-all"]
Inductive js_value : Type :=
| JUndefined
| JNull
| JBool (b : bool)
| JNum (n : Z)
| JStr (s : string)
| JArr (items : list js_value)
| JObj (fields : list (string * js_value)).

(** Thrown errors.  The messages follow V8's wording; only that an error is
    thrown, and where it is caught, matters to the properties below. *)
Inductive js_error : Type :=
| TypeError (message : string)
| SyntaxError (message : string)
| APIError (message : string).

(** [error.message]. *)
Definition message_of (e : js_error) : string :=
  match e with
  | TypeError m | SyntaxError m | APIError m => m
  end.

(** How an evaluation ends: with a value, or with a thrown error (for an
    [async] function: a promise that resolves, or one that rejects). *)
Inductive completion (A : Type) : Type :=
| Normal (a : A)
| Throw (e : js_error).
Arguments Normal {A} a.
Arguments Throw {A} e.

(** The first binding of [key] in an association list. *)
Fixpoint assoc {A : Type} (key : string) (table : list (string * A)) : option A :=
  match table with
  | [] => None
  | (k, v) :: rest => if String.eqb k key then Some v else assoc key rest
  end.

(** The members every object literal inherits from [Object.prototype]:
    eleven functions, and the accessor [__proto__]. *)
Definition object_prototype_members : list string :=
  [ "constructor"; "__defineGetter__"; "__defineSetter__"; "hasOwnProperty";
    "__lookupGetter__"; "__lookupSetter__"; "isPrototypeOf";
    "propertyIsEnumerable"; "toString"; "valueOf"; "__proto__";
    "toLocaleString" ].

(** What a property read [table[key]] on an object literal finds: an own
    property, a member inherited from [Object.prototype] (a function or, for
    [__proto__], the prototype object: truthy in every case), or nothing
    ([undefined]). *)
Inductive property (A : Type) : Type :=
| Own (v : A)
| Inherited (name : string)
| Absent.
Arguments Own {A} v.
Arguments Inherited {A} name.
Arguments Absent {A}.

Definition get {A : Type} (table : list (string * A)) (key : string) : property A :=
  match assoc key table with
  | Some v => Own v
  | None =>
      if existsb (String.eqb key) object_prototype_members
      then Inherited key else Absent
  end.

(** [value.name] for the names this program reads off the classifier's
    response ([choices], [message], [content]): none of them is a member of
    a built-in prototype, so only own properties count.  Reading a property
    of [undefined] or [null] throws. *)
Definition member (value : js_value) (name : string) : completion js_value :=
  match value with
  | JUndefined =>
      Throw (TypeError ("Cannot read properties of undefined (reading '" ++ name ++ "')"))
  | JNull =>
      Throw (TypeError ("Cannot read properties of null (reading '" ++ name ++ "')"))
  | JObj fields =>
      match assoc name fields with Some v => Normal v | None => Normal JUndefined end
  | _ => Normal JUndefined
  end.

(** [value[0]]. *)
Definition item0 (value : js_value) : completion js_value :=
  match value with
  | JArr items => Normal (hd JUndefined items)
  | JStr (String c _) => Normal (JStr (String c EmptyString))
  | other => member other "0"
  end.

(** [value.trim()]: only a string has the method. *)
Definition call_trim (value : js_value) : completion string :=
  match value with
  | JStr s => Normal (trim s)
  | JUndefined =>
      Throw (TypeError "Cannot read properties of undefined (reading 'trim')")
  | JNull =>
      Throw (TypeError "Cannot read properties of null (reading 'trim')")
  | _ => Throw (TypeError "content.trim is not a function")
  end.

(** [[...value]]: arrays and strings are iterable, nothing else here is. *)
Definition spread (value : js_value) : completion (list js_value) :=
  match value with
  | JArr items => Normal items
  | JStr s => Normal (map JStr (chars s))
  | _ => Throw (TypeError "llmConnectors is not iterable")
  end.

(** The equality of [Set] members, SameValueZero: primitives by value;
    objects and arrays by identity, and two of them at different places of
    a parsed value are never the same object. *)
Definition same_value_zero (a b : js_value) : bool :=
  match a, b with
  | JUndefined, JUndefined => true
  | JNull, JNull => true
  | JBool x, JBool y => Bool.eqb x y
  | JNum x, JNum y => Z.eqb x y
  | JStr x, JStr y => String.eqb x y
  | _, _ => false
  end.

(** [set.add(x)]: a [Set] keeps its members in insertion order. *)
Definition set_add (set : list js_value) (x : js_value) : list js_value :=
  if existsb (same_value_zero x) set then set else (set ++ [x])%list.

(** [[...new Set(xs)]]. *)
Definition new_Set (xs : list js_value) : list js_value :=
  fold_left set_add xs [].

(** Truthiness of a string-or-null, as in [timeHint || "upcoming"]. *)
Definition or_else (value : option string) (fallback : string) : string :=
  match value with
  | Some (String c rest) => String c rest
  | _ => fallback
  end.

(** ToString, as a property read [table[value]] applies it to its key.  An
    object with an own [toString] property (never a function in parsed
    JSON) cannot be converted; an array joins its converted items. *)
Fixpoint ToString (value : js_value) : completion string :=
  match value with
  | JUndefined => Normal "undefined"
  | JNull => Normal "null"
  | JBool b => Normal (if b then "true" else "false")
  | JNum n => Normal (NilZero.string_of_int (Z.to_int n))
  | JStr s => Normal s
  | JArr items =>
      (fix join_items (l : list js_value) : completion string :=
         match l with
         | [] => Normal EmptyString
         | x :: rest =>
             let first :=
               match x with
               | JUndefined | JNull => Normal EmptyString
               | _ => ToString x
               end in
             match first, rest with
             | Throw e, _ => Throw e
             | Normal sx, [] => Normal sx
             | Normal sx, _ =>
                 match join_items rest with
                 | Throw e => Throw e
                 | Normal sr => Normal (sx ++ "," ++ sr)
                 end
             end
         end) items
  | JObj fields =>
      match assoc "toString" fields with
      | Some _ => Throw (TypeError "Cannot convert object to primitive value")
      | None => Normal "[object Object]"
      end
  end.

(** ** Console output and the evaluation monad *)

Inductive console_line : Type :=
| Log (text : string)
| Warn (text : string)
| Error (text : string).

(** An evaluation appends to the console and ends with a completion. *)
Definition js (A : Type) : Type := list console_line -> completion A * list console_line.

Definition ret {A : Type} (a : A) : js A := fun out => (Normal a, out).

Definition bind {A B : Type} (m : js A) (k : A -> js B) : js B :=
  fun out =>
    match m out with
    | (Normal a, out') => k a out'
    | (Throw e, out') => (Throw e, out')
    end.

(** A completion reached without console output. *)
Definition lift {A : Type} (c : completion A) : js A := fun out => (c, out).

(** [try { body } catch (error) { handler }]. *)
Definition try_catch {A : Type} (body : js A) (handler : js_error -> js A) : js A :=
  fun out =>
    match body out with
    | (Normal a, out') => (Normal a, out')
    | (Throw e, out') => handler e out'
    end.

Definition console_log (text : string) : js unit :=
  fun out => (Normal tt, (out ++ [Log text])%list).

Definition console_warn (text : string) : js unit :=
  fun out => (Normal tt, (out ++ [Warn text])%list).

Definition console_error (text : string) : js unit :=
  fun out => (Normal tt, (out ++ [Error text])%list).

(** ** A reader for a subset of JSON

    [JSON.parse] itself is a parameter of the analyzers below.  This reader
    is the instance the worked examples run on.  It covers arrays, objects,
    [null], [true], [false], integers and strings without escapes, with JSON
    white space between tokens; fractions, exponents and backslash escapes
    are outside it (it reports them as errors). *)

Definition is_json_space (c : ascii) : bool :=
  let n := N_of_ascii c in ((n =? 32) || (n =? 9) || (n =? 10) || (n =? 13))%N.

Fixpoint skip_json_space (s : string) : string :=
  match s with
  | String c rest => if is_json_space c then skip_json_space rest else s
  | EmptyString => EmptyString
  end.

Definition is_digit (c : ascii) : bool :=
  let n := N_of_ascii c in ((48 <=? n) && (n <=? 57))%N.

(** The digits at the head of [s], as a number, and what follows them. *)
Fixpoint read_digits (acc : Z) (s : string) : Z * string :=
  match s with
  | String c rest =>
      if is_digit c
      then read_digits (10 * acc + Z.of_N (N_of_ascii c) - 48)%Z rest
      else (acc, s)
  | EmptyString => (acc, s)
  end.

(** An integer literal: no leading zero, no fraction, no exponent. *)
Definition read_integer (s : string) : option (Z * string) :=
  let (negative, digits) :=
    match s with
    | String "-" rest => (true, rest)
    | _ => (false, s)
    end in
  match digits with
  | String c after =>
      if is_digit c then
        let (n, rest) :=
          if Ascii.eqb c "0" then (0%Z, after) else read_digits 0 digits in
        match rest with
        | String d _ =>
            if is_digit d || Ascii.eqb d "." || Ascii.eqb d "e" || Ascii.eqb d "E"
            then None
            else Some (if negative then (- n)%Z else n, rest)
        | EmptyString => Some (if negative then (- n)%Z else n, rest)
        end
      else None
  | EmptyString => None
  end.

Definition quote : ascii := ascii_of_nat 34.
Definition backslash : ascii := ascii_of_nat 92.

(** The characters up to the closing quote of a string literal. *)
Fixpoint read_string (s : string) : option (string * string) :=
  match s with
  | EmptyString => None
  | String c rest =>
      if Ascii.eqb c quote then Some (EmptyString, rest)
      else if Ascii.eqb c backslash || (N_of_ascii c <? 32)%N then None
      else
        match read_string rest with
        | Some (body, after) => Some (String c body, after)
        | None => None
        end
  end.

(** The members of an object whose first is [key : v] and whose others are
    [later]: a repeated key keeps its first place and takes its last value. *)
Definition define_first (key : string) (v : js_value)
    (later : list (string * js_value)) : list (string * js_value) :=
  match assoc key later with
  | Some last =>
      (key, last) :: filter (fun kv => negb (String.eqb (fst kv) key)) later
  | None => (key, v) :: later
  end.

Fixpoint read_value (fuel : nat) (s : string) : option (js_value * string) :=
  match fuel with
  | O => None
  | S fuel' =>
      match skip_json_space s with
      | String "[" rest =>
          match skip_json_space rest with
          | String "]" after => Some (JArr [], after)
          | items =>
              match read_items fuel' items with
              | Some (vs, after) => Some (JArr vs, after)
              | None => None
              end
          end
      | String "{" rest =>
          match skip_json_space rest with
          | String "}" after => Some (JObj [], after)
          | members =>
              match read_members fuel' members with
              | Some (fs, after) => Some (JObj fs, after)
              | None => None
              end
          end
      | other =>
          match after_prefix (String quote EmptyString) other,
                after_prefix "null" other, after_prefix "true" other,
                after_prefix "false" other with
          | Some rest, _, _, _ =>
              match read_string rest with
              | Some (body, after) => Some (JStr body, after)
              | None => None
              end
          | _, Some after, _, _ => Some (JNull, after)
          | _, _, Some after, _ => Some (JBool true, after)
          | _, _, _, Some after => Some (JBool false, after)
          | None, None, None, None =>
              match read_integer other with
              | Some (n, after) => Some (JNum n, after)
              | None => None
              end
          end
      end
  end
with read_items (fuel : nat) (s : string) : option (list js_value * string) :=
  match fuel with
  | O => None
  | S fuel' =>
      match read_value fuel' s with
      | Some (v, after) =>
          match skip_json_space after with
          | String "]" rest => Some ([v], rest)
          | String "," rest =>
              match read_items fuel' rest with
              | Some (vs, rest') => Some (v :: vs, rest')
              | None => None
              end
          | _ => None
          end
      | None => None
      end
  end
with read_members (fuel : nat) (s : string) : option (list (string * js_value) * string) :=
  match fuel with
  | O => None
  | S fuel' =>
      match after_prefix (String quote EmptyString) (skip_json_space s) with
      | Some rest =>
          match read_string rest with
          | Some (key, after_key) =>
              match skip_json_space after_key with
              | String ":" after_colon =>
                  match read_value fuel' after_colon with
                  | Some (v, after) =>
                      match skip_json_space after with
                      | String "}" rest' => Some ([(key, v)], rest')
                      | String "," rest' =>
                          match read_members fuel' rest' with
                          | Some (fs, rest'') => Some (define_first key v fs, rest'')
                          | None => None
                          end
                      | _ => None
                      end
                  | None => None
                  end
              | _ => None
              end
          | None => None
          end
      | None => None
      end
  end.

Definition JSON_parse_subset (text : string) : completion js_value :=
  match read_value (2 * String.length text + 2) text with
  | Some (v, rest) =>
      match skip_json_space rest with
      | EmptyString => Normal v
      | _ => Throw (SyntaxError "Unexpected non-whitespace character after JSON")
      end
  | None => Throw (SyntaxError "Unexpected token in JSON")
  end.

End JS.

Notation "x <- m ;; k" := (JS.bind m (fun x => k))
  (at level 61, m at next level, right associativity).
Notation "m ;;; k" := (JS.bind m (fun _ => k))
  (at level 61, right associativity).

(* ================================================================== *)
(** * server_withContextManager.js *)
(* ================================================================== *)

Module Server.
Import JS.

(** [{ connectors, timeHint }]: what both analyzers' callers read.  The
    rule-based analyzer lists strings; the hybrid resolver lists whatever the
    classifier's array held.  [timeHint] is a string or [null]. *)
Record Intent (A : Type) : Type := {
  connectors : list A;
  timeHint : option string
}.
Arguments connectors {A} _.
Arguments timeHint {A} _.

(** The built-in rule table, used when [intentRules.json] cannot be read. *)
Definition defaultConnectorRules : list (string * list string) :=
  [ ("google_calendar", ["meeting"; "schedule"; "calendar"; "free"; "busy"]);
    ("aws_monitor", ["server"; "status"; "deployment"; "aws"; "error"; "uptime"]);
    ("notion_docs", ["note"; "decision"; "project"; "document"; "summary"]);
    ("github_repo", ["pull request"; "repo"; "commit"; "issue"]);
    ("stripe_finance", ["payment"; "invoice"; "balance"; "transaction"]);
    ("fitbit_health", ["steps"; "sleep"; "fitness"; "health"]) ].

Section Analyzers.

(** The rule table in force: the parsed [intentRules.json], or the default. *)
Variable connectorRules : list (string * list string).

(** The classification collaborator: how the awaited
    [openai.chat.completions.create] call ends for a given user message. *)
Variable chat_completions_create : string -> completion js_value.

(** [JSON.parse]: a value, or a [SyntaxError]. *)
Variable JSON_parse : string -> completion js_value.

(** [connectorRules[conn].some((keyword) => text.includes(keyword))]; [conn]
    is always one of the table's own keys. *)
Definition some_keyword_in (text conn : string) : bool :=
  match assoc conn connectorRules with
  | Some keywords => existsb (fun keyword => includes text keyword) keywords
  | None => false
  end.

Definition ruleBasedAnalyzer (query : string) : Intent string :=
  let text := toLowerCase query in
  let connectors :=
    filter (fun conn => some_keyword_in text conn) (map fst connectorRules) in
  let timeHint :=
    if includes text "today" then Some "today"
    else if includes text "tomorrow" then Some "tomorrow"
    else if test_next_week text then Some "next_week"
    else None in
  {| connectors := match connectors with
                   | [] => ["semantic_search"]
                   | _ :: _ => connectors
                   end;
     timeHint := timeHint |}.

Definition llmAnalyzer (query : string) : js js_value :=
  try_catch
    (response <- lift (chat_completions_create query) ;;
     choices <- lift (member response "choices") ;;
     choice <- lift (item0 choices) ;;
     message <- lift (member choice "message") ;;
     content <- lift (member message "content") ;;
     text <- lift (call_trim content) ;;
     parsed <- lift (JSON_parse text) ;;
     ret parsed)
    (fun error =>
       console_error ("LLM analyzer error: " ++ message_of error) ;;;
       ret (JArr [])).

Definition analyzeIntent (query : string) : js (Intent js_value) :=
  let ruleResult := ruleBasedAnalyzer query in
  llmConnectors <- llmAnalyzer query ;;
  llmItems <- lift (spread llmConnectors) ;;
  let combinedConnectors :=
    new_Set (map JStr (connectors ruleResult) ++ llmItems)%list in
  ret {| connectors := combinedConnectors; timeHint := timeHint ruleResult |}.

End Analyzers.

(** What [data[connector] || "No data available"] evaluates to: a summary
    text, or a member inherited from [Object.prototype]. *)
Inductive summary_value : Type :=
| Text (text : string)
| PrototypeMember (name : string).

Record ConnectorContext : Type := {
  connector : js_value;
  summary : summary_value
}.

(** The object literal [data] of [fetchConnector]; its first summary
    interpolates the time hint. *)
Definition data (timeHint : option string) : list (string * string) :=
  [ ("google_calendar",
     "Checked calendar for " ++ or_else timeHint "upcoming" ++ " meetings.");
    ("aws_monitor", "Fetched server health metrics from AWS.");
    ("notion_docs", "Retrieved recent meeting notes and project updates.");
    ("github_repo", "Fetched latest pull requests and commits.");
    ("stripe_finance", "Fetched balance and transaction summaries.");
    ("fitbit_health", "Fetched recent step count and sleep stats.");
    ("semantic_search", "Performed general semantic search for context.") ].

Definition fetchConnector (connector user_id : js_value) (query : string)
    (timeHint : option string) : completion ConnectorContext :=
  match ToString connector with
  | Throw e => Throw e
  | Normal key =>
      Normal {| connector := connector;
                summary := match get (data timeHint) key with
                           | Own (String c rest) => Text (String c rest)
                           | Own EmptyString => Text "No data available"
                           | Inherited name => PrototypeMember name
                           | Absent => Text "No data available"
                           end |}
  end.

(** [Promise.all] over promises that are settled when they are made: every
    value, in order, or the first rejection. *)
Fixpoint Promise_all {A : Type} (promises : list (completion A)) : completion (list A) :=
  match promises with
  | [] => Normal []
  | Throw e :: _ => Throw e
  | Normal a :: rest =>
      match Promise_all rest with
      | Normal others => Normal (a :: others)
      | Throw e => Throw e
      end
  end.

(** Part B of the [/mcp-query] handler: one fetch per resolved connector. *)
Definition fetchConnectorContexts (intent : Intent js_value) (user_id : js_value)
    (query : string) : completion (list ConnectorContext) :=
  Promise_all
    (map (fun conn => fetchConnector conn user_id query (timeHint intent))
         (connectors intent)).

End Server.

(* ================================================================== *)
(** * context_manager.js *)
(* ================================================================== *)

Module ContextManager.
Import JS.

Definition MOCK_DOC_REPO : list (string * list string) :=
  [ ("continuous deployment",
     [ "CD is the practice of automatically deploying code changes to production. The biggest challenge in 2025 is typically security validation within the automated pipeline.";
       "A common bottleneck is integration testing across microservices, requiring complex environment orchestration.";
       "Organizational challenges, specifically lack of trust between Dev and Ops, often prevent full CD adoption." ]);
    ("machine learning",
     [ "MLOps teams often struggle with model drift and continuous retraining pipeline complexity." ]);
    ("cloud migration",
     [ "Cost optimization and vendor lock-in are primary risks when migrating to the cloud." ]) ].

Record RetrievedContext : Type := {
  contextText : string;
  useSearchTool : bool
}.

(** The separator of [relevantChunks.join]: a line of three dashes. *)
Definition chunk_separator : string := LF ++ "---" ++ LF.

(** The [for ... of] loop of [mockRetrieveContext], with the chunks pushed
    so far.  A topic whose lower-cased name is an inherited member finds a
    truthy value without a [slice] method. *)
Fixpoint retrieve_chunks (inferredTopics : list string) (relevantChunks : list string)
    : completion (list string) :=
  match inferredTopics with
  | [] => Normal relevantChunks
  | topic :: rest =>
      match get MOCK_DOC_REPO (toLowerCase topic) with
      | Own sourceData =>
          retrieve_chunks rest (relevantChunks ++ firstn 2 sourceData)%list
      | Inherited _ => Throw (TypeError "sourceData.slice is not a function")
      | Absent => retrieve_chunks rest relevantChunks
      end
  end.

(** The three console messages of the module. *)
Definition retrieving_notice (inferredTopics : list string) : string :=
  "[Context Manager] Retrieving context for inferred topics: "
  ++ join ", " inferredTopics.

Definition search_notice : string :=
  "[Context Manager] Query indicates real-time data needed, enabling Google Search tool.".

Definition no_context_warning : string :=
  "[Context Manager] No specific domain context inferred. Relying on LLM's general knowledge and Search Tool.".

Definition mockRetrieveContext (inferredTopics : list string) (initialQuery : string)
    : js RetrievedContext :=
  console_log (retrieving_notice inferredTopics) ;;;
  relevantChunks <- lift (retrieve_chunks inferredTopics []) ;;
  if includes initialQuery "right now" then
    console_log search_notice ;;;
    ret {| contextText := join chunk_separator relevantChunks;
           useSearchTool := true |}
  else
    ret {| contextText := join chunk_separator relevantChunks;
           useSearchTool := false |}.

(** [{ finalPrompt, tools }]; [tools] is an array or [undefined]. *)
Record AugmentedPrompt : Type := {
  finalPrompt : string;
  tools : js_value
}.

(** [[{ google_search: {} }]]. *)
Definition google_search_tools : js_value :=
  JArr [JObj [("google_search", JObj [])]].

(** The template literal of STEP 4, cut at its two interpolations. *)
Definition template_before_context : string :=
  LF ++
  "You are a **Pragmatic and Solution-Oriented DevOps Consultant**. Your primary intent is to provide **actionable recommendations and expert analysis**." ++ LF ++
  LF ++
  "Based on the following retrieved context, answer the user's query." ++ LF ++
  LF ++
  "INSTRUCTION SET:" ++ LF ++
  "1.  Analyze the provided information (CONTEXT and USER QUERY)." ++ LF ++
  "2.  If possible, identify a root cause or key challenge." ++ LF ++
  "3.  Generate your response as a concise summary followed by a bulleted list of 2-3 specific, actionable steps or recommendations." ++ LF ++
  LF ++
  "RETRIEVED CONTEXT:" ++ LF ++
  "---" ++ LF.

Definition template_before_query : string :=
  LF ++
  "---" ++ LF ++
  LF ++
  "USER QUERY:" ++ LF.

Definition template_after_query : string :=
  LF ++
  LF ++
  "Generate your response now." ++ LF ++
  "    ".

Definition render_template (contextText userQuery : string) : string :=
  template_before_context ++ contextText ++ template_before_query ++ userQuery
  ++ template_after_query.

(** STEP 1: the topics pushed for a query, in push order. *)
Definition inferredTopics (userQuery : string) : list string :=
  ((if includes userQuery "deployment" then ["Continuous Deployment"] else []) ++
   (if includes userQuery "ML" then ["Machine Learning"] else []))%list.

Definition prepareContextualPrompt (userQuery : string) : js AugmentedPrompt :=
  match inferredTopics userQuery with
  | [] =>
      console_warn no_context_warning ;;;
      ret {| finalPrompt := userQuery; tools := google_search_tools |}
  | topics =>
      retrieved <- mockRetrieveContext topics userQuery ;;
      let finalPrompt :=
        render_template (contextText retrieved) userQuery in
      let tools :=
        if useSearchTool retrieved then google_search_tools else JUndefined in
      ret {| finalPrompt := finalPrompt; tools := tools |}
  end.

End ContextManager.

(* ================================================================== *)
(** * The vocabulary of the properties *)
(* ================================================================== *)

Module Notions.
Import JS.

(** [key] occurs in [s]: some stretch of [s] is [key]. *)
Definition Substring (key s : string) : Prop :=
  exists before after, s = before ++ key ++ after.

(** [key] occurs in [s] up to letter case: some stretch of [s] and [key]
    have the same lower-case form. *)
Definition OccursIgnoringCase (key s : string) : Prop :=
  exists before middle after,
    s = before ++ middle ++ after /\ toLowerCase middle = toLowerCase key.

Fixpoint all_space (s : string) : bool :=
  match s with
  | EmptyString => true
  | String c rest => is_space c && all_space rest
  end.

(** A match of [next], white space, [week] somewhere in [s]. *)
Definition NextWeekMatch (s : string) : Prop :=
  exists before spaces after,
    s = before ++ "next" ++ spaces ++ "week" ++ after /\
    spaces <> EmptyString /\ all_space spaces = true.

(** Every trigger string of the table is its own lower-case form. *)
Definition lower_case_triggers (rules : list (string * list string)) : bool :=
  forallb (fun entry => forallb (fun k => String.eqb (toLowerCase k) k) (snd entry))
          rules.

(** No two members of the list are the same [Set] member. *)
Fixpoint distinct_members (l : list js_value) : bool :=
  match l with
  | [] => true
  | x :: rest => negb (existsb (same_value_zero x) rest) && distinct_members rest
  end.

(** The reference excerpts a topic contributes: at most the first two of
    the table's entry under the topic's lower-case name. *)
Definition excerpts_for (topic : string) : list string :=
  match assoc (toLowerCase topic) ContextManager.MOCK_DOC_REPO with
  | Some sourceData => firstn 2 sourceData
  | None => []
  end.

(** The connectors the filter of [ruleBasedAnalyzer] keeps. *)
Definition matched (connectorRules : list (string * list string)) (query : string)
    : list string :=
  filter (fun conn =>
            Server.some_keyword_in connectorRules (toLowerCase query) conn)
         (map fst connectorRules).

(** How the [try] block of [llmAnalyzer] ends: it writes nothing to the
    console, so it is a completion. *)
Definition classified (chat_completions_create : string -> completion js_value)
    (JSON_parse : string -> completion js_value) (query : string)
    : completion js_value :=
  match chat_completions_create query with
  | Throw e => Throw e
  | Normal response =>
  match member response "choices" with
  | Throw e => Throw e
  | Normal choices =>
  match item0 choices with
  | Throw e => Throw e
  | Normal choice =>
  match member choice "message" with
  | Throw e => Throw e
  | Normal message =>
  match member message "content" with
  | Throw e => Throw e
  | Normal content =>
  match call_trim content with
  | Throw e => Throw e
  | Normal text => JSON_parse text
  end end end end end end.

End Notions.

(* ================================================================== *)
(** * Replies of the classifier, for the worked examples *)
(* ================================================================== *)

Module Replies.
Import JS.

(** [s] between double quotes. *)
Definition quoted (s : string) : string :=
  String quote EmptyString ++ s ++ String quote EmptyString.

(** The chat-completion response whose first choice says [content]. *)
Definition chat_reply (content : js_value) : js_value :=
  JObj [("choices",
         JArr [JObj [("index", JNum 0);
                     ("message", JObj [("role", JStr "assistant");
                                       ("content", content)])]])].

(** The text [{ "connectors" : ["aws_monitor"] }] without its spaces: valid
    JSON, but an object where an array was asked for. *)
Definition object_text : string :=
  "{" ++ quoted "connectors" ++ ":[" ++ quoted "aws_monitor" ++ "]}".

(** The text [["aws_monitor", "github_repo"]]: the reply asked for. *)
Definition array_text : string :=
  "[" ++ quoted "aws_monitor" ++ ", " ++ quoted "github_repo" ++ "]".

(** The text [["constructor"]]: an array with a name outside the vocabulary. *)
Definition constructor_text : string := "[" ++ quoted "constructor" ++ "]".

Definition answers (content : js_value) : string -> completion js_value :=
  fun _ => Normal (chat_reply content).

End Replies.

(* ================================================================== *)
(** * server_withContextManager.js: the final call and the route *)
(* ================================================================== *)

Module Route.
Import JS Server ContextManager.

(** ToBoolean, as [!query] and [tools ? ... : ...] apply it. *)
Definition truthy (value : js_value) : bool :=
  match value with
  | JUndefined | JNull => false
  | JBool b => b
  | JNum n => negb (Z.eqb n 0)
  | JStr EmptyString => false
  | JStr (String _ _) => true
  | JArr _ | JObj _ => true
  end.

(** What reaches the console while a request is handled.  The lines of
    [analyzeIntent] and [prepareContextualPrompt] are kept as they are; a
    call of the route or of [callLLMApi] is kept as the call and its
    arguments, before the console renders them (the texts start with a
    pictograph, and arrays and errors are printed by the console's
    inspector). *)
Inductive server_line : Type :=
| Line (line : console_line)
| AnalyzingQuery (query : string)
| ConnectorsSelected (connectors : list js_value)
| ContextPrepared
| CallingFinalLLM
| AugmentedPromptLength (length : nat)
| ErrorProcessingRequest (err : js_error).

(** Evaluation in the route: server lines, and a completion. *)
Definition srv (A : Type) : Type :=
  list server_line -> completion A * list server_line.

Definition srv_ret {A : Type} (a : A) : srv A := fun out => (Normal a, out).

Definition srv_bind {A B : Type} (m : srv A) (k : A -> srv B) : srv B :=
  fun out =>
    match m out with
    | (Normal a, out') => k a out'
    | (Throw e, out') => (Throw e, out')
    end.

Definition srv_lift {A : Type} (c : completion A) : srv A := fun out => (c, out).

Definition srv_log (line : server_line) : srv unit :=
  fun out => (Normal tt, (out ++ [line])%list).

(** An awaited call of one of the modelled functions: its console lines
    follow those already written. *)
Definition srv_run {A : Type} (m : js A) : srv A :=
  fun out => let (c, lines) := m [] in (c, (out ++ map Line lines)%list).

Notation "x <~ m ;; k" := (srv_bind m (fun x => k))
  (at level 61, m at next level, right associativity).
Notation "m ;;, k" := (srv_bind m (fun _ => k))
  (at level 61, right associativity).

(** [callLLMApi({ finalPrompt, tools, user_id })]; the value is the
    [llm_response_text] of the object it returns.  The identifier is
    printed by [ToString]; a number is printed in full, as JavaScript prints
    an integer a double holds exactly (magnitude below 2^53). *)
Definition callLLMApi (finalPrompt : string) (tools user_id : js_value) : srv string :=
  srv_log CallingFinalLLM ;;,
  srv_log (AugmentedPromptLength (String.length finalPrompt)) ;;,
  user <~ srv_lift (ToString user_id) ;;
  srv_ret ("[LLM Response] Answer for user " ++ user
           ++ " based on the augmented prompt. Tools enabled: "
           ++ (if truthy tools then "google_search" else "None") ++ ".").

(** [mcp_metadata] of the response. *)
Record Metadata : Type := {
  user_id : js_value;
  connectors_analyzed : list js_value;
  tools_enabled_by_context_manager : string;
  mcp_sources : list ConnectorContext
}.

(** The object handed to [res.json]. *)
Inductive payload : Type :=
| ErrorPayload (error : string)
| ResultPayload (final_llm_prompt final_response : string) (mcp_metadata : Metadata).

Record Response : Type := {
  status : nat;
  json : payload
}.

(** [const { user_id, query } = req.body]: a missing property is
    [undefined]; there is nothing to take from [undefined] or [null]. *)
Definition destructure (body : js_value) : completion (js_value * js_value) :=
  match body with
  | JUndefined =>
      Throw (TypeError "Cannot destructure property 'user_id' of 'req.body' as it is undefined.")
  | JNull =>
      Throw (TypeError "Cannot destructure property 'user_id' of 'req.body' as it is null.")
  | JObj fields =>
      Normal (match assoc "user_id" fields with Some v => v | None => JUndefined end,
              match assoc "query" fields with Some v => v | None => JUndefined end)
  | _ => Normal (JUndefined, JUndefined)
  end.

(** [res.status(500).json({ error: err.message })]. *)
Definition failure (err : js_error) : Response :=
  {| status := 500; json := ErrorPayload (message_of err) |}.

Section Handler.

Variable connectorRules : list (string * list string).
Variable chat_completions_create : string -> completion js_value.
Variable JSON_parse : string -> completion js_value.

(** The [try] block of the [/mcp-query] handler.  Only a string has
    [toLowerCase], so for any other query [analyzeIntent] rejects in its
    first statement, before the classifier is called. *)
Definition handle (body : js_value) : srv Response :=
  fields <~ srv_lift (destructure body) ;;
  let (user_id, query) := fields in
  if negb (truthy query) then
    srv_ret {| status := 400; json := ErrorPayload "Missing query text" |}
  else
    shown <~ srv_lift (ToString query) ;;
    srv_log (AnalyzingQuery shown) ;;,
    match query with
    | JStr text =>
        intent <~ srv_run (analyzeIntent connectorRules chat_completions_create
                                         JSON_parse text) ;;
        srv_log (ConnectorsSelected (connectors intent)) ;;,
        results <~ srv_lift (fetchConnectorContexts intent user_id text) ;;
        prompt <~ srv_run (prepareContextualPrompt text) ;;
        srv_log ContextPrepared ;;,
        llm_response_text <~ callLLMApi (finalPrompt prompt) (tools prompt) user_id ;;
        srv_ret
          {| status := 200;
             json :=
               ResultPayload (finalPrompt prompt) llm_response_text
                 {| user_id := user_id;
                    connectors_analyzed := connectors intent;
                    tools_enabled_by_context_manager :=
                      if truthy (tools prompt) then "google_search" else "None";
                    mcp_sources := results |} |}
    | _ => srv_lift (Throw (TypeError "query.toLowerCase is not a function"))
    end.

(** [app.post("/mcp-query", ...)]: the response sent, and the console. *)
Definition mcp_query (body : js_value) (out : list server_line)
    : Response * list server_line :=
  match handle body out with
  | (Normal response, out') => (response, out')
  | (Throw err, out') =>
      (failure err, (out' ++ [ErrorProcessingRequest err])%list)
  end.

End Handler.

End Route.

(** ** The vocabulary of the route's properties *)

Module RouteNotions.
Import Route.

(** No line of the list reports a failed request. *)
Definition no_failure_line (lines : list server_line) : Prop :=
  forall err, ~ In (ErrorProcessingRequest err) lines.

End RouteNotions.

(* ================================================================== *)
(** * server_withContextManager.js: the rule table as it is loaded *)
(* ================================================================== *)

(** The analyzers of [Server] take the rule table as the object of keyword
    arrays it is meant to be.  The program itself keeps whatever
    [JSON.parse] made of [intentRules.json]; this module models the loading
    and [ruleBasedAnalyzer] on such a value. *)
Module Untyped.
Import JS Server.

(** The array index a property key stands for, if any: a decimal numeral
    without leading zero, below 2^32 - 1. *)
Definition array_index (key : string) : option N :=
  match key with
  | EmptyString => None
  | String c rest =>
      if is_digit c && (negb (Ascii.eqb c "0") || String.eqb rest EmptyString) then
        match read_digits 0 key with
        | (n, EmptyString) =>
            if (n <? 4294967295)%Z then Some (Z.to_N n) else None
        | _ => None
        end
      else None
  end.

(** Index keys are listed in ascending order. *)
Fixpoint insert_index (entry : N * string) (sorted : list (N * string))
    : list (N * string) :=
  match sorted with
  | [] => [entry]
  | first :: rest =>
      if (fst entry <=? fst first)%N then entry :: sorted
      else first :: insert_index entry rest
  end.

Fixpoint index_keys (keys : list string) : list (N * string) :=
  match keys with
  | [] => []
  | key :: rest =>
      match array_index key with
      | Some n => insert_index (n, key) (index_keys rest)
      | None => index_keys rest
      end
  end.

(** The own keys of an object: index keys in ascending order, then the
    other keys in the order they were defined. *)
Definition own_keys (fields : list (string * js_value)) : list string :=
  (map snd (index_keys (map fst fields))
   ++ filter (fun key => match array_index key with Some _ => false | None => true end)
             (map fst fields))%list.

(** The decimal numeral of an index. *)
Definition index_key (n : nat) : string := NilZero.string_of_uint (Nat.to_uint n).

(** [Object.keys(value)]. *)
Definition Object_keys (value : js_value) : completion (list string) :=
  match value with
  | JUndefined | JNull =>
      Throw (TypeError "Cannot convert undefined or null to object")
  | JBool _ | JNum _ => Normal []
  | JStr s => Normal (map index_key (seq 0 (String.length s)))
  | JArr items => Normal (map index_key (seq 0 (length items)))
  | JObj fields => Normal (own_keys fields)
  end.

(** [value[key]] for a key [Object.keys] listed. *)
Definition own_property (value : js_value) (key : string) : js_value :=
  match value with
  | JObj fields =>
      match assoc key fields with Some v => v | None => JUndefined end
  | JArr items =>
      match array_index key with
      | Some n => nth (N.to_nat n) items JUndefined
      | None => JUndefined
      end
  | JStr s =>
      match array_index key with
      | Some n =>
          match String.get (N.to_nat n) s with
          | Some c => JStr (String c EmptyString)
          | None => JUndefined
          end
      | None => JUndefined
      end
  | _ => JUndefined
  end.

(** [keywords.some((keyword) => text.includes(keyword))] on the members of
    an array: [includes] converts its argument to a string, and [some]
    stops at the first hit. *)
Fixpoint some_includes (text : string) (keywords : list js_value) : completion bool :=
  match keywords with
  | [] => Normal false
  | keyword :: rest =>
      match ToString keyword with
      | Throw e => Throw e
      | Normal searchString =>
          if includes text searchString then Normal true
          else some_includes text rest
      end
  end.

(** [entry.some(...)]: only an array has the method. *)
Definition some (text : string) (entry : js_value) : completion bool :=
  match entry with
  | JArr keywords => some_includes text keywords
  | JUndefined =>
      Throw (TypeError "Cannot read properties of undefined (reading 'some')")
  | JNull =>
      Throw (TypeError "Cannot read properties of null (reading 'some')")
  | _ => Throw (TypeError "connectorRules[conn].some is not a function")
  end.

(** [keys.filter((conn) => connectorRules[conn].some(...))]. *)
Fixpoint filter_connectors (connectorRules : js_value) (text : string)
    (keys : list string) : completion (list string) :=
  match keys with
  | [] => Normal []
  | conn :: rest =>
      match some text (own_property connectorRules conn) with
      | Throw e => Throw e
      | Normal hit =>
          match filter_connectors connectorRules text rest with
          | Throw e => Throw e
          | Normal kept => Normal (if hit then conn :: kept else kept)
          end
      end
  end.

Definition ruleBasedAnalyzer (connectorRules : js_value) (query : string)
    : completion (Intent string) :=
  let text := toLowerCase query in
  match Object_keys connectorRules with
  | Throw e => Throw e
  | Normal keys =>
      match filter_connectors connectorRules text keys with
      | Throw e => Throw e
      | Normal connectors =>
          let timeHint :=
            if includes text "today" then Some "today"
            else if includes text "tomorrow" then Some "tomorrow"
            else if test_next_week text then Some "next_week"
            else None in
          Normal {| connectors := match connectors with
                                  | [] => ["semantic_search"]
                                  | _ :: _ => connectors
                                  end;
                    timeHint := timeHint |}
      end
  end.

(** A table of keyword lists as the object it is in the program. *)
Definition rules_object (rules : list (string * list string)) : js_value :=
  JObj (map (fun entry => (fst entry, JArr (map JStr (snd entry)))) rules).

(** The console call made while loading; its text starts with a
    pictograph, so the call is kept, not the text. *)
Inductive startup_line : Type :=
| RulesLoaded
| UsingDefaults.

(** Lines 25-39: the table is what [JSON.parse] returns for the text of
    [intentRules.json]; the built-in table when reading or parsing throws. *)
Definition loadConnectorRules (readFileSync : completion string)
    (JSON_parse : string -> completion js_value) : js_value * startup_line :=
  match readFileSync with
  | Throw _ => (rules_object defaultConnectorRules, UsingDefaults)
  | Normal text =>
      match JSON_parse text with
      | Throw _ => (rules_object defaultConnectorRules, UsingDefaults)
      | Normal parsed => (parsed, RulesLoaded)
      end
  end.

(** [ruleBasedAnalyzer(query)] for whatever the caller passes: the first
    statement is [query.toLowerCase()], and only a string has the method. *)
Definition ruleBasedAnalyzer_of (connectorRules query : js_value)
    : completion (Intent string) :=
  match query with
  | JStr text => ruleBasedAnalyzer connectorRules text
  | JUndefined =>
      Throw (TypeError "Cannot read properties of undefined (reading 'toLowerCase')")
  | JNull =>
      Throw (TypeError "Cannot read properties of null (reading 'toLowerCase')")
  | _ => Throw (TypeError "query.toLowerCase is not a function")
  end.

(** [analyzeIntent(query)] on the table as loaded and for whatever the
    caller passes.  The rule-based analyzer runs first; when it throws, the
    classifier is not called.  A query that passed it is a string, and that
    string is the user message of the classification call; the last branch
    is never reached. *)
Definition analyzeIntent (connectorRules : js_value)
    (chat_completions_create JSON_parse : string -> completion js_value)
    (query : js_value) : js (Intent js_value) :=
  ruleResult <- lift (ruleBasedAnalyzer_of connectorRules query) ;;
  match query with
  | JStr text =>
      llmConnectors <- llmAnalyzer chat_completions_create JSON_parse text ;;
      llmItems <- lift (spread llmConnectors) ;;
      let combinedConnectors :=
        new_Set (map JStr (connectors ruleResult) ++ llmItems)%list in
      ret {| connectors := combinedConnectors; timeHint := timeHint ruleResult |}
  | _ => lift (Throw (TypeError "query.toLowerCase is not a function"))
  end.

End Untyped.

(* ================================================================== *)
(** * Request bodies, for the worked instances *)
(* ================================================================== *)

Module Requests.
Import JS.

(** The body [{ user_id, query }] of a request. *)
Definition request (user query : js_value) : js_value :=
  JObj [("user_id", user); ("query", query)].

End Requests.

(* ================================================================== *)
(** * Strings: what the host operations decide *)
(* ================================================================== *)

Section StringFacts.
Import JS Notions.

Lemma append_assoc (a b c : string) : (a ++ b) ++ c = a ++ b ++ c.
Proof. induction a as [|x a IH]; simpl; [reflexivity | now rewrite IH]. Qed.

Lemma append_empty_r (a : string) : a ++ EmptyString = a.
Proof. induction a as [|x a IH]; simpl; [reflexivity | now rewrite IH]. Qed.

Lemma startsWith_iff (key s : string) :
  startsWith s key = true <-> exists after, s = key ++ after.
Proof.
  revert s; induction key as [|k key IH]; intros s; simpl.
  - split; [intros _; now exists s | reflexivity].
  - destruct s as [|c s].
    + split; [discriminate | intros [after H]; discriminate].
    + rewrite andb_true_iff, Ascii.eqb_eq, IH. split.
      * intros [-> [after ->]]. now exists after.
      * intros [after H]. injection H as -> ->. split; [reflexivity | now exists after].
Qed.

Lemma includes_unfold (s key : string) :
  includes s key =
  startsWith s key ||
  match s with EmptyString => false | String _ rest => includes rest key end.
Proof. destruct s; reflexivity. Qed.

Lemma includes_iff (s key : string) :
  includes s key = true <-> Substring key s.
Proof.
  unfold Substring. split.
  - induction s as [|c s IH]; simpl; rewrite orb_true_iff.
    + intros [H | H]; [| discriminate].
      apply startsWith_iff in H as [after ->]. now exists EmptyString, after.
    + intros [H | H].
      * apply startsWith_iff in H as [after ->]. now exists EmptyString, after.
      * destruct (IH H) as (before & after & ->). now exists (String c before), after.
  - intros (before & after & ->).
    induction before as [|c before IH]; rewrite includes_unfold; simpl.
    + assert (H : startsWith (key ++ after) key = true)
        by (apply startsWith_iff; now exists after).
      now rewrite H.
    + rewrite IH. apply orb_true_r.
Qed.

Lemma includes_false_iff (s key : string) :
  includes s key = false <-> ~ Substring key s.
Proof.
  rewrite <- includes_iff. destruct (includes s key); split; congruence.
Qed.

Lemma toLowerCase_append (a b : string) :
  toLowerCase (a ++ b) = toLowerCase a ++ toLowerCase b.
Proof. induction a as [|x a IH]; simpl; [reflexivity | now rewrite IH]. Qed.

Lemma toLowerCase_length (a : string) : String.length (toLowerCase a) = String.length a.
Proof. induction a as [|x a IH]; simpl; [reflexivity | now rewrite IH]. Qed.

(** A stretch of the lower-cased string is the lower-case form of a stretch
    of the string. *)
Lemma toLowerCase_split (s x y : string) :
  toLowerCase s = x ++ y ->
  exists a b, s = a ++ b /\ toLowerCase a = x /\ toLowerCase b = y.
Proof.
  revert s; induction x as [|c x IH]; intros s H; simpl in H.
  - now exists EmptyString, s.
  - destruct s as [|d s]; [discriminate |].
    simpl in H. injection H as Hc Hs.
    destruct (IH _ Hs) as (a & b & -> & <- & <-).
    exists (String d a), b. simpl. now rewrite Hc.
Qed.

(** Case-blind occurrence is occurrence of the lower-case key in the
    lower-case string: what the analyzer computes for a lower-case key. *)
Lemma OccursIgnoringCase_iff (key s : string) :
  OccursIgnoringCase key s <-> Substring (toLowerCase key) (toLowerCase s).
Proof.
  unfold OccursIgnoringCase, Substring. split.
  - intros (before & middle & after & -> & H).
    exists (toLowerCase before), (toLowerCase after).
    now rewrite !toLowerCase_append, H.
  - intros (x & y & H).
    apply toLowerCase_split in H as (a & b & -> & <- & H).
    apply toLowerCase_split in H as (m & c & -> & H & <-).
    now exists a, m, c.
Qed.

Lemma lower_char_idempotent (c : ascii) : lower_char (lower_char c) = lower_char c.
Proof. destruct c as [[] [] [] [] [] [] [] []]; reflexivity. Qed.

Lemma toLowerCase_idempotent (s : string) : toLowerCase (toLowerCase s) = toLowerCase s.
Proof.
  induction s as [|c s IH]; simpl; [reflexivity |].
  now rewrite lower_char_idempotent, IH.
Qed.

(** Occurrence survives lower-casing both sides. *)
Lemma Substring_toLowerCase (key s : string) :
  Substring key s -> Substring (toLowerCase key) (toLowerCase s).
Proof.
  intros (before & after & ->).
  exists (toLowerCase before), (toLowerCase after).
  now rewrite !toLowerCase_append.
Qed.

Lemma after_prefix_iff (key s rest : string) :
  after_prefix key s = Some rest <-> s = key ++ rest.
Proof.
  revert s; induction key as [|k key IH]; intros s; simpl.
  - split; [now intros [= ->] | now intros ->].
  - destruct s as [|c s]; [split; discriminate |].
    destruct (Ascii.eqb_spec k c) as [-> | Hne].
    + rewrite IH. split; [now intros -> | now intros [= ->]].
    + split; [discriminate | intros [= H _]; now symmetry in H].
Qed.

Lemma trimStart_split (s : string) :
  exists spaces, s = spaces ++ trimStart s /\ all_space spaces = true.
Proof.
  induction s as [|c s (spaces & IH & Hall)]; simpl.
  - now exists EmptyString.
  - destruct (is_space c) eqn:Hc.
    + exists (String c spaces). simpl. rewrite Hc, Hall. now rewrite <- IH.
    + now exists EmptyString.
Qed.

Lemma trimStart_spaces (spaces rest : string) :
  all_space spaces = true -> trimStart (spaces ++ rest) = trimStart rest.
Proof.
  induction spaces as [|c spaces IH]; simpl; [reflexivity |].
  intros [Hc Hall]%andb_true_iff. rewrite Hc. now apply IH.
Qed.

Lemma next_week_at_iff (s : string) :
  next_week_at s = true <->
  exists spaces after,
    s = "next" ++ spaces ++ "week" ++ after /\
    spaces <> EmptyString /\ all_space spaces = true.
Proof.
  unfold next_week_at. split.
  - destruct (after_prefix "next" s) as [[|c rest]|] eqn:Hp; try discriminate.
    apply after_prefix_iff in Hp. intros [Hc Hw]%andb_true_iff.
    apply startsWith_iff in Hw as [after Hw].
    destruct (trimStart_split rest) as (spaces & Hrest & Hall).
    exists (String c spaces), after. repeat split.
    + rewrite Hp, Hrest, Hw. reflexivity.
    + discriminate.
    + simpl. now rewrite Hc, Hall.
  - intros (spaces & after & -> & Hne & Hall).
    destruct spaces as [|c spaces]; [congruence |].
    simpl in Hall. apply andb_true_iff in Hall as [Hc Hall].
    replace (after_prefix "next" ("next" ++ String c spaces ++ "week" ++ after))
      with (Some (String c (spaces ++ "week" ++ after)))
      by (symmetry; now apply after_prefix_iff).
    rewrite Hc, trimStart_spaces by assumption. reflexivity.
Qed.

Lemma test_next_week_unfold (s : string) :
  test_next_week s =
  next_week_at s ||
  match s with EmptyString => false | String _ rest => test_next_week rest end.
Proof. destruct s; reflexivity. Qed.

Lemma next_week_at_test (s : string) :
  next_week_at s = true -> test_next_week s = true.
Proof. rewrite test_next_week_unfold. now intros ->. Qed.

Lemma test_next_week_later (c : ascii) (s : string) :
  test_next_week s = true -> test_next_week (String c s) = true.
Proof. rewrite (test_next_week_unfold (String c s)). intros ->. apply orb_true_r. Qed.

(** The matcher decides the regular expression's language. *)
Lemma test_next_week_iff (s : string) :
  test_next_week s = true <-> NextWeekMatch s.
Proof.
  unfold NextWeekMatch. split.
  - induction s as [|c s IH]; rewrite test_next_week_unfold, orb_true_iff.
    + intros [H | H]; discriminate.
    + intros [H | H].
      * apply next_week_at_iff in H as (spaces & after & -> & H).
        now exists EmptyString, spaces, after.
      * destruct (IH H) as (before & spaces & after & -> & H').
        now exists (String c before), spaces, after.
  - intros (before & spaces & after & -> & Hne & Hall).
    induction before as [|c before IH].
    + apply next_week_at_test, next_week_at_iff. now exists spaces, after.
    + apply (test_next_week_later c), IH.
Qed.

End StringFacts.

(* ================================================================== *)
(** * The rule-based analyzer *)
(* ================================================================== *)

Section RuleBasedAnalyzer.
Import JS Notions Server.

Variable connectorRules : list (string * list string).

Lemma assoc_In {A : Type} (key : string) (table : list (string * A)) (v : A) :
  assoc key table = Some v -> In (key, v) table.
Proof.
  induction table as [|[k w] table IH]; simpl; [discriminate |].
  destruct (String.eqb_spec k key) as [-> | _].
  - intros [= ->]. now left.
  - intros H. right. now apply IH.
Qed.

Lemma assoc_key {A : Type} (key : string) (table : list (string * A)) :
  In key (map fst table) <-> exists v, assoc key table = Some v.
Proof.
  induction table as [|[k w] table IH]; simpl.
  - split; [tauto | intros [v H]; discriminate].
  - destruct (String.eqb_spec k key) as [-> | Hne].
    + split; [intros _; now exists w | now left].
    + rewrite <- IH. tauto.
Qed.

(** The test applied to one connector: one of its triggers occurs in the
    text. *)
Lemma some_keyword_in_iff (text conn : string) :
  some_keyword_in connectorRules text conn = true <->
  exists keywords keyword,
    assoc conn connectorRules = Some keywords /\ In keyword keywords /\
    Substring keyword text.
Proof.
  unfold some_keyword_in. destruct (assoc conn connectorRules) as [keywords|].
  - rewrite existsb_exists. split.
    + intros (keyword & Hin & H%includes_iff). now exists keywords, keyword.
    + intros (keywords' & keyword & [= <-] & Hin & H%includes_iff). now exists keyword.
  - split; [discriminate | intros (? & ? & H & _); discriminate].
Qed.

#[local] Abbreviation matched := (matched connectorRules).

Lemma ruleBasedAnalyzer_connectors (query : string) :
  connectors (ruleBasedAnalyzer connectorRules query) =
  match matched query with [] => ["semantic_search"] | _ :: _ => matched query end.
Proof. reflexivity. Qed.

Lemma matched_iff (query conn : string) :
  In conn (matched query) <->
  exists keywords keyword,
    assoc conn connectorRules = Some keywords /\ In keyword keywords /\
    Substring keyword (toLowerCase query).
Proof.
  unfold Notions.matched. rewrite filter_In, some_keyword_in_iff. split.
  - tauto.
  - intros (keywords & keyword & H). split; [| now exists keywords, keyword].
    apply assoc_key. exists keywords. tauto.
Qed.

(** The analyzer as it computes: a connector is selected when one of its
    triggers occurs in the lower-cased query, and the fallback is selected
    alone when no trigger does. *)
Lemma connectors_on_lowered_query (query : string) :
  (forall C keywords keyword,
      assoc C connectorRules = Some keywords -> In keyword keywords ->
      Substring keyword (toLowerCase query) ->
      In C (connectors (ruleBasedAnalyzer connectorRules query)))
  /\
  ((forall C keywords keyword,
      assoc C connectorRules = Some keywords -> In keyword keywords ->
      ~ Substring keyword (toLowerCase query)) ->
   connectors (ruleBasedAnalyzer connectorRules query) = ["semantic_search"]).
Proof.
  rewrite ruleBasedAnalyzer_connectors. split.
  - intros C keywords keyword Hassoc Hin Hsub.
    assert (H : In C (matched query))
      by (apply matched_iff; now exists keywords, keyword).
    destruct (matched query); [destruct H | exact H].
  - intros Hnone. destruct (matched query) as [|conn rest] eqn:E; [reflexivity |].
    assert (H : In conn (matched query)) by (rewrite E; now left).
    apply matched_iff in H as (keywords & keyword & Hassoc & Hin & Hsub).
    now destruct (Hnone conn keywords keyword).
Qed.

Lemma lower_case_trigger (C : string) (keywords : list string) (keyword : string) :
  lower_case_triggers connectorRules = true ->
  assoc C connectorRules = Some keywords -> In keyword keywords ->
  toLowerCase keyword = keyword.
Proof.
  unfold lower_case_triggers. rewrite forallb_forall. intros Hall Hassoc Hin.
  specialize (Hall _ (assoc_In _ _ _ Hassoc)). simpl in Hall.
  rewrite forallb_forall in Hall. now apply String.eqb_eq, Hall.
Qed.


(** A trigger with an upper-case letter selects nothing: the query is
    lower-cased, the trigger is not. *)
Lemma lowered_text_has_no_capital (text key : string) :
  Substring key (toLowerCase text) -> toLowerCase key = key.
Proof.
  intros (before & after & H).
  apply toLowerCase_split in H as (a & b & _ & _ & H).
  apply toLowerCase_split in H as (m & c & _ & H & _).
  rewrite <- H. apply toLowerCase_idempotent.
Qed.

(** C3, amended.  For every query and every rule table: the Rule-Based
    Analyzer's connector list contains connector [C] whenever a trigger
    string of [C] that is written without upper-case letters occurs in the
    query up to letter case; and when no trigger string of any connector
    occurs in the query up to letter case, the list is exactly
    [["semantic_search"]].  The analyzer lower-cases the query and compares
    the triggers as they are written. *)
Theorem rule_based_connectors (query : string) :
  (forall C keywords keyword,
      assoc C connectorRules = Some keywords -> In keyword keywords ->
      toLowerCase keyword = keyword ->
      OccursIgnoringCase keyword query ->
      In C (connectors (ruleBasedAnalyzer connectorRules query)))
  /\
  ((forall C keywords keyword,
      assoc C connectorRules = Some keywords -> In keyword keywords ->
      ~ OccursIgnoringCase keyword query) ->
   connectors (ruleBasedAnalyzer connectorRules query) = ["semantic_search"]).
Proof.
  destruct (connectors_on_lowered_query query) as [Hhit Hmiss]. split.
  - intros C keywords keyword Hassoc Hin Hlower Hocc.
    apply (Hhit C keywords keyword Hassoc Hin).
    apply OccursIgnoringCase_iff in Hocc. now rewrite Hlower in Hocc.
  - intros Hnone. apply Hmiss. intros C keywords keyword Hassoc Hin Hsub.
    apply (Hnone C keywords keyword Hassoc Hin), OccursIgnoringCase_iff.
    (* a trigger found in the lower-cased query has no capital itself *)
    now rewrite (lowered_text_has_no_capital _ _ Hsub).
Qed.

(** C5.  For every query the time hint is settled by the first rule that
    matches the lower-cased query: [today] occurs, then [tomorrow] occurs,
    then the pattern [next], white space, [week] matches, else no hint; so
    a query in which both [today] and [tomorrow] occur gets [today]. *)
Theorem time_hint_priority (query : string) :
  let text := toLowerCase query in
  let hint := timeHint (ruleBasedAnalyzer connectorRules query) in
  (Substring "today" text -> hint = Some "today") /\
  (~ Substring "today" text -> Substring "tomorrow" text ->
   hint = Some "tomorrow") /\
  (~ Substring "today" text -> ~ Substring "tomorrow" text ->
   NextWeekMatch text -> hint = Some "next_week") /\
  (~ Substring "today" text -> ~ Substring "tomorrow" text ->
   ~ NextWeekMatch text -> hint = None) /\
  (Substring "today" query -> Substring "tomorrow" query ->
   hint = Some "today").
Proof.
  intros text hint. subst hint. unfold ruleBasedAnalyzer. cbn [timeHint].
  fold text.
  assert (Htoday : Substring "today" text -> includes text "today" = true)
    by apply includes_iff.
  repeat split.
  - intros H. now rewrite Htoday.
  - intros H1%includes_false_iff H2%includes_iff. now rewrite H1, H2.
  - intros H1%includes_false_iff H2%includes_false_iff H3%test_next_week_iff.
    now rewrite H1, H2, H3.
  - intros H1%includes_false_iff H2%includes_false_iff H3.
    rewrite H1, H2. destruct (test_next_week text) eqn:E; [| reflexivity].
    now apply test_next_week_iff in E.
  - intros H _. rewrite Htoday; [reflexivity |].
    apply (Substring_toLowerCase "today"), H.
Qed.

End RuleBasedAnalyzer.

(** The built-in trigger [aws] is written in lower case, and a query in
    capitals selects its connector. *)
Lemma rule_based_connectors_witness :
  JS.toLowerCase "aws" = "aws" /\
  In "aws_monitor"
     (Server.connectors
        (Server.ruleBasedAnalyzer Server.defaultConnectorRules "Is AWS up?")).
Proof.
  split; [reflexivity |].
  apply (proj1 (rule_based_connectors Server.defaultConnectorRules "Is AWS up?")
               "aws_monitor"
               ["server"; "status"; "deployment"; "aws"; "error"; "uptime"]
               "aws").
  - reflexivity.
  - simpl; tauto.
  - reflexivity.
  - exists "Is ", "AWS", " up?". split; reflexivity.
Defined.

(** The built-in table: a connector is selected whenever one of its
    triggers occurs in the query up to letter case. *)
Lemma default_rules_select (query C keyword : string) (keywords : list string) :
  JS.assoc C Server.defaultConnectorRules = Some keywords ->
  In keyword keywords ->
  Notions.OccursIgnoringCase keyword query ->
  In C (Server.connectors (Server.ruleBasedAnalyzer Server.defaultConnectorRules query)).
Proof.
  intros Hassoc Hin Hocc.
  apply OccursIgnoringCase_iff in Hocc.
  rewrite (lower_case_trigger Server.defaultConnectorRules C keywords keyword
             eq_refl Hassoc Hin) in Hocc.
  now apply (proj1 (connectors_on_lowered_query Server.defaultConnectorRules query)
               C keywords keyword).
Qed.

(** C3 as the claim states it fails.  In the table whose one trigger is
    written [AWS], the trigger occurs in the query [AWS is down] letter for
    letter, so up to letter case as well; yet its connector is not selected,
    and the analyzer returns the fallback. *)
Lemma capital_trigger_is_dead :
  JS.assoc "aws_monitor" [("aws_monitor", ["AWS"])] = Some ["AWS"] /\
  In "AWS" ["AWS"] /\
  Notions.Substring "AWS" "AWS is down" /\
  Notions.OccursIgnoringCase "AWS" "AWS is down" /\
  ~ In "aws_monitor"
       (Server.connectors
          (Server.ruleBasedAnalyzer [("aws_monitor", ["AWS"])] "AWS is down")) /\
  Server.connectors
    (Server.ruleBasedAnalyzer [("aws_monitor", ["AWS"])] "AWS is down") =
  ["semantic_search"].
Proof.
  split; [reflexivity |]. split; [now left |].
  split; [now exists EmptyString, " is down" |].
  split; [exists EmptyString, "AWS", " is down"; split; reflexivity |].
  split; [| reflexivity].
  intros [H | []]. discriminate.
Qed.

(** A query in which both words occur gets [today]. *)
Lemma time_hint_priority_witness :
  Server.timeHint
    (Server.ruleBasedAnalyzer Server.defaultConnectorRules
       "Am I free today or tomorrow?") = Some "today".
Proof.
  apply (proj2 (proj2 (proj2 (proj2
           (time_hint_priority Server.defaultConnectorRules
              "Am I free today or tomorrow?"))))).
  - exists "Am I free ", " or tomorrow?". reflexivity.
  - exists "Am I free today or ", "?". reflexivity.
Defined.

(* ================================================================== *)
(** * Sets of values *)
(* ================================================================== *)

Section SetFacts.
Import JS Notions.

Lemma same_value_zero_eq (a b : js_value) :
  same_value_zero a b = true -> a = b.
Proof.
  destruct a, b; simpl; try discriminate; try reflexivity.
  - intros H. f_equal. now apply Bool.eqb_prop.
  - intros H. f_equal. now apply Z.eqb_eq.
  - intros H. f_equal. now apply String.eqb_eq.
Qed.

Lemma same_value_zero_sym (a b : js_value) :
  same_value_zero a b = same_value_zero b a.
Proof.
  destruct a, b; simpl; try reflexivity.
  - now destruct b, b0.
  - apply Z.eqb_sym.
  - apply String.eqb_sym.
Qed.

Lemma same_value_zero_string (a b : string) :
  same_value_zero (JStr a) (JStr b) = true <-> a = b.
Proof. apply String.eqb_eq. Qed.

Lemma set_add_keeps (set : list js_value) (x y : js_value) :
  In x set -> In x (set_add set y).
Proof.
  unfold set_add. destruct (existsb _ set); [trivial |].
  intros H. apply in_or_app. now left.
Qed.

Lemma set_add_adds (set : list js_value) (x : js_value) : In x (set_add set x).
Proof.
  unfold set_add. destruct (existsb _ set) eqn:E.
  - apply existsb_exists in E as (z & Hz & H).
    now rewrite (same_value_zero_eq _ _ H).
  - apply in_or_app. right. now left.
Qed.

Lemma set_add_only (set : list js_value) (x y : js_value) :
  In x (set_add set y) -> In x set \/ x = y.
Proof.
  unfold set_add. destruct (existsb _ set); [tauto |].
  intros [H | [H | []]]%in_app_or; [now left | now right].
Qed.

Lemma fold_set_add_In (xs set : list js_value) (x : js_value) :
  In x (fold_left set_add xs set) <-> In x set \/ In x xs.
Proof.
  revert set; induction xs as [|y xs IH]; intros set; simpl.
  - tauto.
  - rewrite IH. split.
    + intros [H | H]; [| tauto].
      apply set_add_only in H as [H | ->]; tauto.
    + intros [H | [<- | H]].
      * left. now apply set_add_keeps.
      * left. apply set_add_adds.
      * now right.
Qed.


Lemma distinct_members_snoc (set : list js_value) (y : js_value) :
  distinct_members set = true -> existsb (same_value_zero y) set = false ->
  distinct_members (set ++ [y])%list = true.
Proof.
  induction set as [|z set IH]; simpl; [reflexivity |].
  intros [Hz Hset]%andb_true_iff [Hy Hrest]%orb_false_iff.
  rewrite IH by assumption. rewrite andb_true_r.
  rewrite existsb_app, negb_orb. simpl.
  now rewrite Hz, same_value_zero_sym, Hy.
Qed.

Lemma fold_set_add_distinct (xs set : list js_value) :
  distinct_members set = true ->
  distinct_members (fold_left set_add xs set) = true.
Proof.
  revert set; induction xs as [|y xs IH]; intros set Hset; simpl; [exact Hset |].
  apply IH. unfold set_add. destruct (existsb _ set) eqn:E; [exact Hset |].
  now apply distinct_members_snoc.
Qed.

(** ... and holds none of them twice. *)
Lemma new_Set_distinct (xs : list js_value) : distinct_members (new_Set xs) = true.
Proof. now apply fold_set_add_distinct. Qed.


Lemma distinct_members_app (a b : list js_value) (x : js_value) :
  distinct_members (a ++ x :: b)%list = true -> existsb (same_value_zero x) a = false.
Proof.
  induction a as [|z a IH]; simpl; [reflexivity |].
  intros [Hz Hrest]%andb_true_iff. rewrite (IH Hrest), orb_false_r.
  apply negb_true_iff in Hz. rewrite existsb_app in Hz.
  apply orb_false_iff in Hz as [_ Hz]. simpl in Hz.
  apply orb_false_iff in Hz as [Hz _]. now rewrite same_value_zero_sym.
Qed.

Lemma fold_set_add_fresh (xs set : list js_value) :
  distinct_members (set ++ xs)%list = true ->
  fold_left set_add xs set = (set ++ xs)%list.
Proof.
  revert set; induction xs as [|y xs IH]; intros set H; simpl.
  - now rewrite app_nil_r.
  - unfold set_add. rewrite (distinct_members_app _ _ _ H).
    rewrite IH; rewrite <- app_assoc; [reflexivity | exact H].
Qed.

(** A list without repetition goes through a [Set] unchanged. *)
Lemma new_Set_strings (l : list string) :
  NoDup l -> new_Set (map JStr l) = map JStr l.
Proof.
  intros H. unfold new_Set. apply fold_set_add_fresh. simpl.
  induction H as [|x l Hx Hl IH]; simpl; [reflexivity |].
  rewrite IH, andb_true_r. apply negb_true_iff.
  destruct (existsb _ _) eqn:E; [| reflexivity].
  apply existsb_exists in E as (z & Hz & E).
  apply in_map_iff in Hz as (y & <- & Hy).
  apply same_value_zero_string in E as ->. contradiction.
Qed.

End SetFacts.

(* ================================================================== *)
(** * The LLM-based analyzer and the hybrid resolver *)
(* ================================================================== *)

(** One step of a chain of completions: split on how the scrutinee of the
    goal's first [match] ends, and close the branch that throws. *)
Ltac step_completion :=
  match goal with
  | |- context [match ?c with JS.Normal _ => _ | JS.Throw _ => _ end] =>
      lazymatch c with
      | context [match _ with JS.Normal _ => _ | JS.Throw _ => _ end] => fail
      | _ => destruct c; [| reflexivity]
      end
  end.

Section HybridResolver.
Import JS Notions Server.

Variable connectorRules : list (string * list string).
Variable chat_completions_create : string -> completion js_value.
Variable JSON_parse : string -> completion js_value.

#[local] Abbreviation llmAnalyzer :=
  (llmAnalyzer chat_completions_create JSON_parse).
#[local] Abbreviation analyzeIntent :=
  (analyzeIntent connectorRules chat_completions_create JSON_parse).
#[local] Abbreviation ruleBasedAnalyzer := (ruleBasedAnalyzer connectorRules).

#[local] Abbreviation classified :=
  (classified chat_completions_create JSON_parse).

(** The analyzer returns what the block returned, or logs the error and
    returns the empty array. *)
Lemma llmAnalyzer_run (query : string) (out : list console_line) :
  llmAnalyzer query out =
  match classified query with
  | Normal parsed => (Normal parsed, out)
  | Throw error =>
      (Normal (JArr []),
       (out ++ [Error ("LLM analyzer error: " ++ message_of error)])%list)
  end.
Proof.
  unfold Server.llmAnalyzer, Notions.classified, try_catch, bind, lift, ret,
    console_error.
  repeat step_completion. reflexivity.
Qed.

(** Every failure of the block degrades to the empty array, and is logged. *)
Lemma llmAnalyzer_degrades (query : string) (out : list console_line)
    (error : js_error) :
  classified query = Throw error ->
  llmAnalyzer query out =
  (Normal (JArr []),
   (out ++ [Error ("LLM analyzer error: " ++ message_of error)])%list).
Proof. intros H. rewrite llmAnalyzer_run. now rewrite H. Qed.


(** A transport failure degrades to the empty array. *)
Lemma llmAnalyzer_transport_failure (query : string) (out : list console_line)
    (error : js_error) :
  chat_completions_create query = Throw error ->
  fst (llmAnalyzer query out) = Normal (JArr []).
Proof.
  intros H. rewrite llmAnalyzer_run. unfold Notions.classified. now rewrite H.
Qed.

(** A response without the expected shape degrades to the empty array. *)
Lemma llmAnalyzer_shapeless_response (query : string) (out : list console_line)
    (response : js_value) :
  chat_completions_create query = Normal response ->
  member response "choices" = Normal JUndefined ->
  fst (llmAnalyzer query out) = Normal (JArr []).
Proof.
  intros H1 H2. rewrite llmAnalyzer_run. unfold Notions.classified. now rewrite H1, H2.
Qed.

(** A reply whose text is not JSON degrades to the empty array. *)
Lemma llmAnalyzer_parse_failure (query : string) (out : list console_line)
    (response choices choice message : js_value) (content : string)
    (error : js_error) :
  chat_completions_create query = Normal response ->
  member response "choices" = Normal choices ->
  item0 choices = Normal choice ->
  member choice "message" = Normal message ->
  member message "content" = Normal (JStr content) ->
  JSON_parse (trim content) = Throw error ->
  fst (llmAnalyzer query out) = Normal (JArr []).
Proof.
  intros H1 H2 H3 H4 H5 H6. rewrite llmAnalyzer_run. unfold Notions.classified.
  rewrite H1, H2, H3, H4, H5. simpl. now rewrite H6.
Qed.

(** A reply whose text is JSON is returned as parsed, whatever it is. *)
Lemma llmAnalyzer_parsed (query : string) (out : list console_line)
    (parsed : js_value) :
  classified query = Normal parsed ->
  llmAnalyzer query out = (Normal parsed, out).
Proof. intros H. rewrite llmAnalyzer_run. now rewrite H. Qed.

Lemma analyzeIntent_run (query : string) (out : list console_line) :
  analyzeIntent query out =
  match llmAnalyzer query out with
  | (Normal llmConnectors, out') =>
      match spread llmConnectors with
      | Normal llmItems =>
          (Normal {| connectors :=
                       new_Set (map JStr (connectors (ruleBasedAnalyzer query))
                                ++ llmItems)%list;
                     timeHint := timeHint (ruleBasedAnalyzer query) |}, out')
      | Throw e => (Throw e, out')
      end
  | (Throw e, out') => (Throw e, out')
  end.
Proof.
  unfold Server.analyzeIntent, bind, lift, ret.
  destruct (llmAnalyzer query out) as [[v|e] out']; [| reflexivity].
  destruct (spread v); reflexivity.
Qed.



(** The resolver raises exactly when the reply parsed to a value that
    cannot be spread. *)
Lemma analyzeIntent_raises_iff (query : string) (out : list console_line)
    (error : js_error) :
  fst (analyzeIntent query out) = Throw error <->
  exists parsed, classified query = Normal parsed /\ spread parsed = Throw error.
Proof.
  rewrite analyzeIntent_run, llmAnalyzer_run.
  destruct (classified query) as [parsed|e]; cbn [spread fst].
  - destruct (spread parsed) as [items|e] eqn:E; cbn [fst]; split.
    + discriminate.
    + intros (parsed' & [= <-] & H). congruence.
    + intros [= ->]. now exists parsed.
    + intros (parsed' & [= <-] & H). congruence.
  - split; [discriminate | intros (parsed & H & _); discriminate].
Qed.

Lemma rule_based_NoDup (query : string) :
  NoDup (map fst connectorRules) ->
  NoDup (connectors (ruleBasedAnalyzer query)).
Proof.
  intros H. rewrite ruleBasedAnalyzer_connectors.
  pose proof (NoDup_filter
                (fun conn => some_keyword_in connectorRules (toLowerCase query) conn)
                H) as Hf.
  fold (matched connectorRules query) in Hf.
  destruct (matched connectorRules query); [| exact Hf].
  constructor; [intros [] | constructor].
Qed.

(** When the classification fails, the resolver's result is the rule-based
    result. *)
Lemma analyzeIntent_degraded (query : string) (out : list console_line)
    (error : js_error) :
  NoDup (map fst connectorRules) ->
  classified query = Throw error ->
  fst (analyzeIntent query out) =
  Normal {| connectors := map JStr (connectors (ruleBasedAnalyzer query));
            timeHint := timeHint (ruleBasedAnalyzer query) |}.
Proof.
  intros Hkeys Hfail. rewrite analyzeIntent_run, llmAnalyzer_run, Hfail.
  cbn [spread fst]. rewrite app_nil_r.
  now rewrite (new_Set_strings _ (rule_based_NoDup query Hkeys)).
Qed.

End HybridResolver.

(** ** A classifier that answers with an object *)

Section WorkedReplies.
Import JS Notions Server Replies.

Example object_text_parses :
  JSON_parse_subset object_text =
  Normal (JObj [("connectors", JArr [JStr "aws_monitor"])]).
Proof. reflexivity. Qed.

Example conforming_reply :
  analyzeIntent defaultConnectorRules (answers (JStr array_text))
                JSON_parse_subset "Is the server up today?" [] =
  (Normal {| connectors := [JStr "aws_monitor"; JStr "github_repo"];
             timeHint := Some "today" |}, []).
Proof. reflexivity. Qed.

Example reply_in_prose :
  analyzeIntent defaultConnectorRules
                (answers (JStr "I think aws_monitor fits best."))
                JSON_parse_subset "Is the server up today?" [] =
  (Normal {| connectors := [JStr "aws_monitor"]; timeHint := Some "today" |},
   [Error "LLM analyzer error: Unexpected token in JSON"]).
Proof. reflexivity. Qed.

Example reply_without_content :
  analyzeIntent defaultConnectorRules (answers JNull)
                JSON_parse_subset "Is the server up today?" [] =
  (Normal {| connectors := [JStr "aws_monitor"]; timeHint := Some "today" |},
   [Error "LLM analyzer error: Cannot read properties of null (reading 'trim')"]).
Proof. reflexivity. Qed.

Example transport_failure :
  analyzeIntent defaultConnectorRules (fun _ => Throw (APIError "Connection error."))
                JSON_parse_subset "hello" [] =
  (Normal {| connectors := [JStr "semantic_search"]; timeHint := None |},
   [Error "LLM analyzer error: Connection error."]).
Proof. reflexivity. Qed.

(** C1.  The claim fails here: when the classifier replies with the JSON
    object [{"connectors":["aws_monitor"]}] (a non-conforming response that
    parses), the LLM-Based Analyzer returns that object, not an empty list,
    and logs nothing; and [analyzeIntent] raises a [TypeError] to its caller
    when it spreads the object. *)
Theorem object_reply_breaks_the_pipeline :
  llmAnalyzer (answers (JStr object_text)) JSON_parse_subset
              "Is the server up today?" [] =
  (Normal (JObj [("connectors", JArr [JStr "aws_monitor"])]), [])
  /\
  analyzeIntent defaultConnectorRules (answers (JStr object_text))
                JSON_parse_subset "Is the server up today?" [] =
  (Throw (TypeError "llmConnectors is not iterable"), []).
Proof. split; reflexivity. Qed.

(** C2.  The claim fails here: for the query [Is the server up today?] and
    the LLM-analyzer outcome [{"connectors":["aws_monitor"]}], the Hybrid
    Intent Resolver returns no connector list at all (it raises), although
    the Rule-Based Analyzer selects [aws_monitor] with hint [today]. *)
Theorem object_reply_yields_no_intent :
  ruleBasedAnalyzer defaultConnectorRules "Is the server up today?" =
  {| connectors := ["aws_monitor"]; timeHint := Some "today" |}
  /\
  forall out intent,
    fst (analyzeIntent defaultConnectorRules (answers (JStr object_text))
                       JSON_parse_subset "Is the server up today?" out)
    <> Normal intent.
Proof.
  split; [reflexivity |]. intros out intent.
  rewrite analyzeIntent_run, llmAnalyzer_run.
  change (classified (answers (JStr object_text)) JSON_parse_subset
                     "Is the server up today?")
    with (@Normal js_value (JObj [("connectors", JArr [JStr "aws_monitor"])])).
  cbn. discriminate.
Qed.

End WorkedReplies.

(* ================================================================== *)
(** * The connector fetch stage *)
(* ================================================================== *)

Section FetchStage.
Import JS Notions Server.

Variables (user_id : js_value) (query : string) (timeHint : option string).

(** A fetch for a string identifier always completes, and echoes it. *)
Lemma fetchConnector_string (name : string) :
  exists text,
    fetchConnector (JStr name) user_id query timeHint =
    Normal {| connector := JStr name; summary := text |}.
Proof. unfold fetchConnector. cbn [ToString]. eauto. Qed.

(** An identifier that is neither a key of the summary table nor a member
    of [Object.prototype] gets the sentinel. *)
Lemma fetchConnector_unknown (name : string) :
  assoc name (data timeHint) = None ->
  existsb (String.eqb name) object_prototype_members = false ->
  fetchConnector (JStr name) user_id query timeHint =
  Normal {| connector := JStr name; summary := Text "No data available" |}.
Proof.
  intros Hown Hproto. unfold fetchConnector, get. cbn [ToString].
  now rewrite Hown, Hproto.
Qed.

(** An identifier of the table gets the table's summary. *)
Lemma fetchConnector_known (name text : string) :
  assoc name (data timeHint) = Some text -> text <> EmptyString ->
  fetchConnector (JStr name) user_id query timeHint =
  Normal {| connector := JStr name; summary := Text text |}.
Proof.
  intros Hown Hne. unfold fetchConnector, get. cbn [ToString]. rewrite Hown.
  destruct text; [congruence | reflexivity].
Qed.



End FetchStage.

Section FetchStageResults.
Import JS Notions Server.


(** For string identifiers the stage always completes. *)
Lemma fetchConnectorContexts_strings (names : list string) (hint : option string)
    (user_id : js_value) (query : string) :
  exists results,
    fetchConnectorContexts {| connectors := map JStr names; timeHint := hint |}
                           user_id query = Normal results /\
    map connector results = map JStr names.
Proof.
  unfold fetchConnectorContexts. cbn [connectors timeHint].
  induction names as [|name names (results & IH & Hmap)]; cbn [map Promise_all].
  - now exists [].
  - destruct (fetchConnector_string user_id query hint name) as [text ->].
    rewrite IH. eexists. split; [reflexivity |]. cbn [map connector].
    now rewrite Hmap.
Qed.

(** The same identifier, from the classifier's reply to the fetch stage. *)
Example constructor_through_the_pipeline :
  let (resolved, _) :=
    analyzeIntent defaultConnectorRules
                  (Replies.answers (JStr Replies.constructor_text))
                  JSON_parse_subset "hello" [] in
  match resolved with
  | Normal intent =>
      connectors intent = [JStr "semantic_search"; JStr "constructor"] /\
      fetchConnectorContexts intent JNull "hello" =
      Normal [ {| connector := JStr "semantic_search";
                  summary := Text "Performed general semantic search for context." |};
               {| connector := JStr "constructor";
                  summary := PrototypeMember "constructor" |} ]
  | Throw _ => False
  end.
Proof. split; reflexivity. Qed.

(** A member of the classifier's array that cannot be turned into a
    property key makes its fetch, and with it the whole stage, reject. *)
Example unconvertible_connector :
  fetchConnectorContexts
    {| connectors := [JStr "semantic_search"; JObj [("toString", JNum 1)]];
       timeHint := None |} JNull "hello" =
  Throw (TypeError "Cannot convert object to primitive value").
Proof. reflexivity. Qed.

(** C4.  The claim fails here: the identifier [constructor] is absent from
    the summary table, yet [fetchConnector] returns for it not the sentinel
    [No data available] but the member [data] inherits from
    [Object.prototype] under that name (nothing is thrown). *)
Theorem inherited_name_gets_no_sentinel (user_id : js_value) (query : string)
    (timeHint : option string) :
  assoc "constructor" (data timeHint) = None /\
  fetchConnector (JStr "constructor") user_id query timeHint =
  Normal {| connector := JStr "constructor";
            summary := PrototypeMember "constructor" |}.
Proof. split; reflexivity. Qed.

End FetchStageResults.

(* ================================================================== *)
(** * The context manager *)
(* ================================================================== *)

Section ContextManagerFacts.
Import JS Notions ContextManager.

(** The topics pushed are one of four lists, by the two triggers. *)
Lemma inferredTopics_cases (userQuery : string) :
  inferredTopics userQuery =
  match includes userQuery "deployment", includes userQuery "ML" with
  | true, true => ["Continuous Deployment"; "Machine Learning"]
  | true, false => ["Continuous Deployment"]
  | false, true => ["Machine Learning"]
  | false, false => []
  end.
Proof.
  unfold inferredTopics.
  now destruct (includes userQuery "deployment"), (includes userQuery "ML").
Qed.

Lemma inferredTopics_iff (userQuery : string) :
  inferredTopics userQuery <> [] <->
  Substring "deployment" userQuery \/ Substring "ML" userQuery.
Proof.
  rewrite inferredTopics_cases, <- !includes_iff.
  destruct (includes userQuery "deployment"), (includes userQuery "ML");
    split; intros H; try discriminate; try tauto; destruct H; discriminate.
Qed.

(** A topic contributes at most two excerpts, whatever its letter case. *)
Lemma excerpts_for_at_most_two (topic : string) :
  length (excerpts_for topic) <= 2.
Proof.
  unfold excerpts_for. destruct (assoc _ MOCK_DOC_REPO) as [sourceData|].
  - apply firstn_le_length.
  - apply Nat.le_0_l.
Qed.

Lemma excerpts_for_case_blind (topic topic' : string) :
  toLowerCase topic = toLowerCase topic' ->
  excerpts_for topic = excerpts_for topic'.
Proof. unfold excerpts_for. now intros ->. Qed.

(** Topics that name no inherited member are looked up without error, and
    each contributes its excerpts after those already pushed. *)
Lemma retrieve_chunks_flat_map (topics chunks : list string) :
  (forall topic, In topic topics ->
     existsb (String.eqb (toLowerCase topic)) object_prototype_members = false) ->
  retrieve_chunks topics chunks =
  Normal (chunks ++ flat_map excerpts_for topics)%list.
Proof.
  revert chunks; induction topics as [|topic topics IH]; intros chunks Hsafe; simpl.
  - now rewrite app_nil_r.
  - unfold get, excerpts_for.
    destruct (assoc (toLowerCase topic) MOCK_DOC_REPO) as [sourceData|].
    + rewrite IH by (intros t Ht; apply Hsafe; now right).
      now rewrite app_assoc.
    + rewrite (Hsafe topic) by now left.
      rewrite IH by (intros t Ht; apply Hsafe; now right). reflexivity.
Qed.

Lemma inferredTopics_safe (userQuery topic : string) :
  In topic (inferredTopics userQuery) ->
  existsb (String.eqb (toLowerCase topic)) object_prototype_members = false.
Proof.
  rewrite inferredTopics_cases.
  destruct (includes userQuery "deployment"), (includes userQuery "ML"); simpl;
    intuition (subst; reflexivity).
Qed.

(** What retrieval returns and logs for the topics of a query. *)
Lemma mockRetrieveContext_run (userQuery : string) (out : list console_line) :
  mockRetrieveContext (inferredTopics userQuery) userQuery out =
  (Normal {| contextText :=
               join chunk_separator
                    (flat_map excerpts_for (inferredTopics userQuery));
             useSearchTool := includes userQuery "right now" |},
   (out ++ Log (retrieving_notice (inferredTopics userQuery))
        :: (if includes userQuery "right now" then [Log search_notice] else []))%list).
Proof.
  unfold mockRetrieveContext, bind, lift, ret, console_log.
  rewrite retrieve_chunks_flat_map by apply inferredTopics_safe.
  cbn [app]. destruct (includes userQuery "right now").
  - now rewrite <- app_assoc.
  - reflexivity.
Qed.

(** The two paths of [prepareContextualPrompt]. *)
Lemma prepareContextualPrompt_fallback (userQuery : string) (out : list console_line) :
  inferredTopics userQuery = [] ->
  prepareContextualPrompt userQuery out =
  (Normal {| finalPrompt := userQuery; tools := google_search_tools |},
   (out ++ [Warn no_context_warning])%list).
Proof. intros H. unfold prepareContextualPrompt. now rewrite H. Qed.

Lemma prepareContextualPrompt_retrieval (userQuery : string) (out : list console_line) :
  inferredTopics userQuery <> [] ->
  prepareContextualPrompt userQuery out =
  (Normal {| finalPrompt :=
               render_template
                 (join chunk_separator
                       (flat_map excerpts_for (inferredTopics userQuery)))
                 userQuery;
             tools := if includes userQuery "right now"
                      then google_search_tools else JUndefined |},
   snd (mockRetrieveContext (inferredTopics userQuery) userQuery out)).
Proof.
  intros H. unfold prepareContextualPrompt.
  destruct (inferredTopics userQuery) as [|topic topics] eqn:E; [congruence |].
  rewrite <- E. unfold bind. now rewrite mockRetrieveContext_run.
Qed.

Lemma inferredTopics_deployment (userQuery : string) :
  Substring "deployment" userQuery ->
  exists topics, inferredTopics userQuery = "Continuous Deployment" :: topics.
Proof.
  intros H%includes_iff. unfold inferredTopics. rewrite H. simpl. eauto.
Qed.

Lemma excerpts_for_deployment :
  exists first second,
    excerpts_for "Continuous Deployment" = [first; second] /\
    first <> EmptyString /\
    exists excerpts,
      assoc "continuous deployment" MOCK_DOC_REPO = Some excerpts /\
      In first excerpts.
Proof.
  do 2 eexists. split; [reflexivity |]. split; [discriminate |].
  eexists. split; [reflexivity | now left].
Qed.

(** The context of a deployment query starts with a continuous-deployment
    excerpt. *)
Lemma deployment_context (topics : list string) :
  join chunk_separator (flat_map excerpts_for ("Continuous Deployment" :: topics))
  <> EmptyString /\
  exists excerpts excerpt,
    assoc "continuous deployment" MOCK_DOC_REPO = Some excerpts /\
    In excerpt excerpts /\
    Substring excerpt
      (join chunk_separator
            (flat_map excerpts_for ("Continuous Deployment" :: topics))).
Proof.
  destruct excerpts_for_deployment
    as (first & second & Hfor & Hne & excerpts & Hassoc & Hin).
  cbn [flat_map]. rewrite Hfor. cbn [app join]. split.
  - destruct first; [congruence | discriminate].
  - exists excerpts, first. repeat split; try assumption.
    exists EmptyString. eexists. reflexivity.
Qed.

(** C6.  For every query from which no topic is inferred, the Context
    Manager returns the query itself as [finalPrompt] and the Google Search
    descriptor as [tools]; it logs its one warning and does no retrieval. *)
Theorem no_topic_short_circuit (userQuery : string) (out : list console_line) :
  inferredTopics userQuery = [] ->
  prepareContextualPrompt userQuery out =
  (Normal {| finalPrompt := userQuery;
             tools := JArr [JObj [("google_search", JObj [])]] |},
   (out ++ [Warn no_context_warning])%list).
Proof. apply prepareContextualPrompt_fallback. Qed.

(** C7.  For every query with an inferred topic, retrieval returns the
    excerpts of the topics, at most the first two of each entry found under
    the topic's lower-case name, in topic order and joined by the separator,
    and the prompt is the template around that context and the query; so
    when [deployment] occurs in the query the context is not empty and
    holds a continuous-deployment excerpt, and the prompt holds the query. *)
Theorem retrieval_and_rendering (userQuery : string) (out : list console_line) :
  inferredTopics userQuery <> [] ->
  exists retrieved out1 prompt out2,
    mockRetrieveContext (inferredTopics userQuery) userQuery out =
    (Normal retrieved, out1) /\
    contextText retrieved =
    join chunk_separator (flat_map excerpts_for (inferredTopics userQuery)) /\
    prepareContextualPrompt userQuery out = (Normal prompt, out2) /\
    finalPrompt prompt =
    template_before_context ++ contextText retrieved ++ template_before_query
    ++ userQuery ++ template_after_query /\
    (Substring "deployment" userQuery ->
     contextText retrieved <> EmptyString /\
     (exists excerpts excerpt,
        assoc "continuous deployment" MOCK_DOC_REPO = Some excerpts /\
        In excerpt excerpts /\ Substring excerpt (contextText retrieved)) /\
     Substring userQuery (finalPrompt prompt)).
Proof.
  intros Htopics.
  exists {| contextText :=
              join chunk_separator
                   (flat_map excerpts_for (inferredTopics userQuery));
            useSearchTool := includes userQuery "right now" |}.
  eexists. eexists. eexists.
  split; [apply mockRetrieveContext_run |].
  split; [reflexivity |].
  split; [now apply prepareContextualPrompt_retrieval |].
  split; [reflexivity |].
  intros Hdeploy. cbn [contextText finalPrompt].
  destruct (inferredTopics_deployment _ Hdeploy) as [topics ->].
  destruct (deployment_context topics) as [Hne Hexcerpt].
  split; [exact Hne |]. split; [exact Hexcerpt |].
  unfold render_template.
  exists (template_before_context
          ++ join chunk_separator
               (flat_map excerpts_for ("Continuous Deployment" :: topics))
          ++ template_before_query), template_after_query.
  now rewrite !append_assoc.
Qed.

(** C8.  For every query with an inferred topic, [useSearchTool] is true
    exactly when [right now] occurs in the query, and [tools] is the Google
    Search descriptor when it is true and [undefined] when it is false. *)
Theorem search_tool_follows_recency_cue (userQuery : string)
    (out : list console_line) :
  inferredTopics userQuery <> [] ->
  exists retrieved out1 prompt out2,
    mockRetrieveContext (inferredTopics userQuery) userQuery out =
    (Normal retrieved, out1) /\
    prepareContextualPrompt userQuery out = (Normal prompt, out2) /\
    (useSearchTool retrieved = true <-> Substring "right now" userQuery) /\
    (useSearchTool retrieved = true ->
     tools prompt = JArr [JObj [("google_search", JObj [])]]) /\
    (useSearchTool retrieved = false -> tools prompt = JUndefined).
Proof.
  intros Htopics. do 4 eexists.
  split; [apply mockRetrieveContext_run |].
  split; [now apply prepareContextualPrompt_retrieval |].
  cbn [useSearchTool tools]. split; [apply includes_iff |].
  split; now intros ->.
Qed.

(** C9.  For every query, two invocations of the Context Manager one after
    the other both complete and return the same [finalPrompt] and the same
    [tools], whatever the console held before. *)
Theorem prepare_twice_same_prompt (userQuery : string) (out : list console_line) :
  exists prompt out1 out2,
    prepareContextualPrompt userQuery out = (Normal prompt, out1) /\
    prepareContextualPrompt userQuery out1 = (Normal prompt, out2).
Proof.
  destruct (inferredTopics userQuery) as [|topic topics] eqn:E.
  - do 3 eexists. split; now apply prepareContextualPrompt_fallback.
  - assert (H : inferredTopics userQuery <> []) by (rewrite E; discriminate).
    do 3 eexists. split; now apply prepareContextualPrompt_retrieval.
Qed.

(** C10.  A topic is inferred only when [deployment] or [ML] occurs in the
    query as written; the query [Deployment of ml models], where both occur
    in another case, takes the no-topic path and comes back unchanged,
    while the Rule-Based Analyzer selects [aws_monitor] for it through its
    trigger [deployment]. *)
Theorem topic_triggers_are_case_sensitive :
  (forall userQuery,
      inferredTopics userQuery <> [] <->
      Substring "deployment" userQuery \/ Substring "ML" userQuery) /\
  Substring "Deployment" "Deployment of ml models" /\
  Substring "ml" "Deployment of ml models" /\
  (forall out,
      fst (prepareContextualPrompt "Deployment of ml models" out) =
      Normal {| finalPrompt := "Deployment of ml models";
                tools := google_search_tools |}) /\
  In "aws_monitor"
     (Server.connectors
        (Server.ruleBasedAnalyzer Server.defaultConnectorRules
           "Deployment of ml models")).
Proof.
  split; [exact inferredTopics_iff |].
  split; [now exists EmptyString, " of ml models" |].
  split; [now exists "Deployment of ", " models" |].
  split; [intros out; now rewrite prepareContextualPrompt_fallback |].
  simpl. tauto.
Qed.

End ContextManagerFacts.

(** The spec's example of a query without a topic. *)
Lemma no_topic_short_circuit_witness :
  ContextManager.inferredTopics "What's the weather?" = [] /\
  ContextManager.prepareContextualPrompt "What's the weather?" [] =
  (JS.Normal {| ContextManager.finalPrompt := "What's the weather?";
                ContextManager.tools :=
                  JS.JArr [JS.JObj [("google_search", JS.JObj [])]] |},
   [JS.Warn ContextManager.no_context_warning]).
Proof.
  split; [reflexivity |].
  apply (no_topic_short_circuit "What's the weather?" []). reflexivity.
Defined.

(** The spec's example of a deployment query. *)
Lemma retrieval_and_rendering_witness :
  ContextManager.inferredTopics "What's blocking our deployment pipeline?" <> [] /\
  exists prompt out,
    ContextManager.prepareContextualPrompt
      "What's blocking our deployment pipeline?" [] = (JS.Normal prompt, out) /\
    Notions.Substring "What's blocking our deployment pipeline?"
                      (ContextManager.finalPrompt prompt).
Proof.
  split; [discriminate |].
  destruct (retrieval_and_rendering "What's blocking our deployment pipeline?" [])
    as (retrieved & out1 & prompt & out2 & _ & _ & Hrun & _ & Hdeploy).
  - discriminate.
  - exists prompt, out2. split; [exact Hrun |].
    apply Hdeploy. now exists "What's blocking our ", " pipeline?".
Defined.

(** The spec's example of a query with a recency cue. *)
Lemma search_tool_follows_recency_cue_witness :
  ContextManager.inferredTopics "deployment status right now" <> [] /\
  exists prompt out,
    ContextManager.prepareContextualPrompt "deployment status right now" [] =
    (JS.Normal prompt, out) /\
    ContextManager.tools prompt = JS.JArr [JS.JObj [("google_search", JS.JObj [])]].
Proof.
  split; [discriminate |].
  destruct (search_tool_follows_recency_cue "deployment status right now" [])
    as (retrieved & out1 & prompt & out2 & Hret & Hrun & Hiff & Hon & _).
  - discriminate.
  - exists prompt, out2. split; [exact Hrun |].
    apply Hon, Hiff. now exists "deployment status ", EmptyString.
Defined.

(* ================================================================== *)
(** * Further properties: the analyzers *)
(* ================================================================== *)

Section AnalyzerProperties.
Import JS Notions Server.

Variable connectorRules : list (string * list string).
Variable chat_completions_create : string -> completion js_value.
Variable JSON_parse : string -> completion js_value.

(** X1.  The Rule-Based Analyzer selects nothing without cause: every
    connector it returns is a key of the table one of whose triggers occurs
    in the lower-cased query, or it is the fallback [semantic_search],
    returned when no trigger of the table occurs. *)
Theorem rule_based_selection_is_sound (query C : string) :
  In C (connectors (ruleBasedAnalyzer connectorRules query)) ->
  (exists keywords keyword,
      assoc C connectorRules = Some keywords /\ In keyword keywords /\
      Substring keyword (toLowerCase query))
  \/
  (C = "semantic_search" /\
   forall C' keywords keyword,
     assoc C' connectorRules = Some keywords -> In keyword keywords ->
     ~ Substring keyword (toLowerCase query)).
Proof.
  rewrite ruleBasedAnalyzer_connectors.
  destruct (matched connectorRules query) as [|conn rest] eqn:E.
  - intros [<- | []]. right. split; [reflexivity |].
    intros C' keywords keyword Hassoc Hin Hsub.
    assert (H : In C' (matched connectorRules query))
      by (apply matched_iff; now exists keywords, keyword).
    now rewrite E in H.
  - intros H. left. rewrite <- E in H. now apply matched_iff in H.
Qed.

(** X2.  The calendar connector's summary follows the query through the
    hint the Rule-Based Analyzer extracts from it.  The summary names one
    period; it is [today] exactly when [today] occurs in the lower-cased
    query, [tomorrow] exactly when [tomorrow] occurs and [today] does not,
    [next_week] exactly when neither occurs and [next], white space, [week]
    matches, and [upcoming] exactly when none of the three does, which is
    when the analyzer gives no hint. *)
Theorem calendar_summary_of_any_hint (query : string) (user_id : js_value) :
  let text := toLowerCase query in
  let hint := timeHint (ruleBasedAnalyzer connectorRules query) in
  exists period,
    fetchConnector (JStr "google_calendar") user_id query hint =
    Normal {| connector := JStr "google_calendar";
              summary := Text ("Checked calendar for " ++ period ++ " meetings.") |}
    /\
    (period = "today" <-> Substring "today" text) /\
    (period = "tomorrow" <->
     ~ Substring "today" text /\ Substring "tomorrow" text) /\
    (period = "next_week" <->
     ~ Substring "today" text /\ ~ Substring "tomorrow" text /\
     NextWeekMatch text) /\
    (period = "upcoming" <->
     ~ Substring "today" text /\ ~ Substring "tomorrow" text /\
     ~ NextWeekMatch text) /\
    (period = "upcoming" <-> hint = None) /\
    (forall h, hint = Some h -> period = h).
Proof.
  intros text hint. subst hint. unfold ruleBasedAnalyzer. cbn [timeHint].
  fold text.
  pose proof (includes_iff text "today") as Htoday.
  pose proof (includes_iff text "tomorrow") as Htomorrow.
  pose proof (test_next_week_iff text) as Hweek.
  destruct (includes text "today").
  { exists "today". split; [reflexivity |].
    repeat split; intros; try discriminate; intuition congruence. }
  destruct (includes text "tomorrow").
  { exists "tomorrow". split; [reflexivity |].
    repeat split; intros; try discriminate; intuition congruence. }
  destruct (test_next_week text).
  { exists "next_week". split; [reflexivity |].
    repeat split; intros; try discriminate; intuition congruence. }
  exists "upcoming". split; [reflexivity |].
  repeat split; intros; try discriminate; intuition congruence.
Qed.

#[local] Abbreviation llmAnalyzer :=
  (llmAnalyzer chat_completions_create JSON_parse).
#[local] Abbreviation analyzeIntent :=
  (analyzeIntent connectorRules chat_completions_create JSON_parse).
#[local] Abbreviation classified :=
  (classified chat_completions_create JSON_parse).

(** X3.  The LLM-Based Analyzer never rejects, whatever the classification
    call and [JSON.parse] do: it returns the parsed reply and writes
    nothing, or it returns the empty array and writes one error line that
    carries the message of what was thrown. *)
Theorem llm_analyzer_returns_or_degrades (query : string) (out : list console_line) :
  (exists parsed,
      classified query = Normal parsed /\
      llmAnalyzer query out = (Normal parsed, out))
  \/
  (exists error,
      classified query = Throw error /\
      llmAnalyzer query out =
      (Normal (JArr []),
       (out ++ [Error ("LLM analyzer error: " ++ message_of error)])%list)).
Proof.
  rewrite llmAnalyzer_run. destruct (classified query) as [parsed|error].
  - left. now exists parsed.
  - right. now exists error.
Qed.

(** X4.  When the classification fails (the call rejects, the response has
    no message content, or the content is not JSON), the Hybrid Intent
    Resolver returns the Rule-Based Analyzer's result unchanged, and the
    failure is on the console. *)
Theorem failed_classification_leaves_rule_result (query : string)
    (out : list console_line) (error : js_error) :
  NoDup (map fst connectorRules) ->
  classified query = Throw error ->
  analyzeIntent query out =
  (Normal {| connectors :=
               map JStr (connectors (ruleBasedAnalyzer connectorRules query));
             timeHint := timeHint (ruleBasedAnalyzer connectorRules query) |},
   (out ++ [Error ("LLM analyzer error: " ++ message_of error)])%list).
Proof.
  intros Hkeys Hfail. rewrite analyzeIntent_run, llmAnalyzer_run, Hfail.
  cbn [spread]. rewrite app_nil_r.
  now rewrite (new_Set_strings _ (rule_based_NoDup connectorRules query Hkeys)).
Qed.

Lemma fold_set_add_extends (xs set : list js_value) :
  exists added, fold_left set_add xs set = (set ++ added)%list.
Proof.
  revert set; induction xs as [|x xs IH]; intros set; simpl.
  - exists []. now rewrite app_nil_r.
  - unfold set_add at 2. destruct (existsb _ set).
    + apply IH.
    + destruct (IH (set ++ [x])%list) as [added ->].
      exists (x :: added). now rewrite <- app_assoc.
Qed.

(** In a list without repeated members, a string of the front part does
    not come back later. *)
Lemma strings_not_added (front back : list js_value) (x : js_value) :
  distinct_members (front ++ back)%list = true ->
  (forall y, In y front -> exists name, y = JStr name) ->
  In x back -> ~ In x front.
Proof.
  intros Hdistinct Hstrings Hback Hfront.
  apply in_split in Hback as (b1 & b2 & ->).
  rewrite app_assoc in Hdistinct.
  pose proof (distinct_members_app _ _ _ Hdistinct) as Hfresh.
  rewrite existsb_app in Hfresh. apply orb_false_iff in Hfresh as [Hfresh _].
  destruct (Hstrings x Hfront) as [name ->].
  assert (Hhit : existsb (same_value_zero (JStr name)) front = true).
  { apply existsb_exists. exists (JStr name). split; [exact Hfront |].
    now apply same_value_zero_string. }
  congruence.
Qed.

(** X6.  When the classifier replies with an array, the combined list
    starts with the rule-based connectors in their order; what follows are
    the members of the reply that are not among them, and no string occurs
    twice in the list. *)
Theorem rule_connectors_come_first (query : string) (out : list console_line)
    (items : list js_value) :
  NoDup (map fst connectorRules) ->
  classified query = Normal (JArr items) ->
  exists added,
    analyzeIntent query out =
    (Normal {| connectors :=
                 (map JStr (connectors (ruleBasedAnalyzer connectorRules query))
                  ++ added)%list;
               timeHint := timeHint (ruleBasedAnalyzer connectorRules query) |},
     out) /\
    (forall x, In x added <->
               In x items /\
               ~ In x (map JStr (connectors (ruleBasedAnalyzer connectorRules query)))) /\
    distinct_members
      (map JStr (connectors (ruleBasedAnalyzer connectorRules query)) ++ added)%list
    = true.
Proof.
  intros Hkeys Hreply. rewrite analyzeIntent_run, llmAnalyzer_run, Hreply.
  cbn [spread].
  set (rule := map JStr (connectors (ruleBasedAnalyzer connectorRules query))).
  assert (Hrule : new_Set rule = rule)
    by apply (new_Set_strings _ (rule_based_NoDup connectorRules query Hkeys)).
  assert (Hfold : new_Set (rule ++ items)%list = fold_left set_add items rule).
  { unfold new_Set. rewrite fold_left_app. fold (new_Set rule). now rewrite Hrule. }
  destruct (fold_set_add_extends items rule) as [added Hadded].
  assert (Hdistinct : distinct_members (rule ++ added)%list = true).
  { rewrite <- Hadded, <- Hfold. apply new_Set_distinct. }
  exists added. rewrite Hfold, Hadded. split; [reflexivity |].
  split; [| exact Hdistinct].
  intros x. split.
  - intros Hx. split.
    + assert (H : In x (rule ++ added)%list) by (apply in_or_app; now right).
      rewrite <- Hadded in H. apply fold_set_add_In in H as [H | H]; [| exact H].
      exfalso. revert H. apply (strings_not_added rule added x Hdistinct); [| exact Hx].
      intros y (name & <- & _)%in_map_iff. now exists name.
    + apply (strings_not_added rule added x Hdistinct); [| exact Hx].
      intros y (name & <- & _)%in_map_iff. now exists name.
  - intros [Hitems Hrule']. 
    assert (H : In x (rule ++ added)%list)
      by (rewrite <- Hadded; apply fold_set_add_In; now right).
    apply in_app_or in H as [H | H]; [contradiction | exact H].
Qed.

End AnalyzerProperties.

(* ================================================================== *)
(** * Further properties: the connector fetch stage *)
(* ================================================================== *)

Section FetchProperties.
Import JS Notions Server.

Variables (user_id : js_value) (query : string) (timeHint : option string).

(** The summaries of the table are neither empty nor the sentinel. *)
Lemma data_summary (name text : string) :
  assoc name (data timeHint) = Some text ->
  text <> EmptyString /\ text <> "No data available".
Proof.
  intros H%assoc_In. unfold data in H. simpl in H.
  repeat (destruct H as [[= <- <-] | H]; [split; discriminate |]).
  destruct H.
Qed.

(** X7.  For a string identifier, the summary is the sentinel
    [No data available] exactly when the identifier is neither a key of
    the summary table nor the name of a member of [Object.prototype]. *)
Theorem sentinel_exactly_for_unknown_names (name : string) :
  fetchConnector (JStr name) user_id query timeHint =
  Normal {| connector := JStr name; summary := Text "No data available" |}
  <->
  assoc name (data timeHint) = None /\ ~ In name object_prototype_members.
Proof.
  unfold fetchConnector, get. cbn [ToString].
  destruct (assoc name (data timeHint)) as [text|] eqn:Hown.
  - destruct (data_summary name text Hown) as [Hne Hsentinel].
    destruct text as [|c rest]; [congruence |]. split.
    + intros [= H]. congruence.
    + intros [H _]. discriminate.
  - destruct (existsb (String.eqb name) object_prototype_members) eqn:Hproto.
    + apply existsb_exists in Hproto as (member & Hin & ->%String.eqb_eq).
      split; [discriminate | intros [_ H]; contradiction].
    + split; [| reflexivity]. intros _. split; [reflexivity |].
      intros Hin.
      assert (H : existsb (String.eqb name) object_prototype_members = true)
        by (apply existsb_exists; exists name; split;
            [exact Hin | apply String.eqb_refl]).
      congruence.
Qed.

Lemma fetchConnector_throws_iff (conn : js_value) (error : js_error) :
  fetchConnector conn user_id query timeHint = Throw error <->
  ToString conn = Throw error.
Proof.
  unfold fetchConnector. destruct (ToString conn); split; congruence.
Qed.

End FetchProperties.

Section FetchStageProperties.
Import JS Notions Server.

(** X8.  For string identifiers the fetch stage always completes: one
    context per identifier, in the order of the list, each echoing its
    identifier. *)
Theorem fetch_stage_on_identifiers (names : list string) (hint : option string)
    (user_id : js_value) (query : string) :
  exists results,
    fetchConnectorContexts {| connectors := map JStr names; timeHint := hint |}
                           user_id query = Normal results /\
    map connector results = map JStr names /\
    length results = length names.
Proof.
  destruct (fetchConnectorContexts_strings names hint user_id query)
    as (results & Hrun & Hmap).
  exists results. repeat split; try assumption.
  apply (f_equal (@length js_value)) in Hmap. now rewrite !length_map in Hmap.
Qed.

(** X9.  The fetch stage is all or nothing: it rejects exactly when some
    connector of the list cannot be converted to a property key, with the
    error of the first such connector, and then returns no context at all,
    not even those of the connectors before it. *)
Theorem fetch_stage_rejects_with_first_unconvertible (intent : Intent js_value)
    (user_id : js_value) (query : string) (error : js_error) :
  fetchConnectorContexts intent user_id query = Throw error <->
  exists before conn after,
    connectors intent = (before ++ conn :: after)%list /\
    (forall c, In c before -> exists key, ToString c = Normal key) /\
    ToString conn = Throw error.
Proof.
  unfold fetchConnectorContexts.
  generalize (connectors intent) as conns. intros conns.
  induction conns as [|c conns IH]; cbn [map Promise_all].
  - split; [discriminate |].
    intros (before & conn & after & H & _). now destruct before.
  - destruct (fetchConnector c user_id query (Server.timeHint intent))
      as [context|e] eqn:Hc.
    + assert (Hkey : exists key, ToString c = Normal key).
      { unfold fetchConnector in Hc. destruct (ToString c) as [key|];
          [now exists key | discriminate]. }
      destruct (Promise_all _) as [others|e'] eqn:Hrest.
      * split; [discriminate |].
        intros (before & conn & after & H & Hbefore & Hconn).
        destruct before as [|b before]; injection H as -> ->.
        -- destruct Hkey as [key Hkey]. congruence.
        -- assert (Hthrow : Normal others = Throw error).
           { apply IH. exists before, conn, after. repeat split; try assumption.
             intros x Hx. apply Hbefore. now right. }
           discriminate.
      * split.
        -- intros [= ->]. destruct (proj1 IH eq_refl)
             as (before & conn & after & -> & Hbefore & Hconn).
           exists (c :: before), conn, after. repeat split; try assumption.
           intros x [<- | Hx]; [exact Hkey | now apply Hbefore].
        -- intros (before & conn & after & H & Hbefore & Hconn).
           destruct before as [|b before]; injection H as -> ->.
           ++ destruct Hkey as [key Hkey]. congruence.
           ++ apply IH. exists before, conn, after. repeat split; try assumption.
              intros x Hx. apply Hbefore. now right.
    + apply fetchConnector_throws_iff in Hc. split.
      * intros [= ->]. exists [], c, conns. repeat split; [| exact Hc].
        intros x [].
      * intros (before & conn & after & H & Hbefore & Hconn).
        destruct before as [|b before]; injection H as Hhead Htail.
        -- subst. congruence.
        -- subst b. destruct (Hbefore c (or_introl eq_refl)) as [key Hkey].
           congruence.
Qed.

End FetchStageProperties.

(* ================================================================== *)
(** * Further properties: the context manager *)
(* ================================================================== *)

Section ContextManagerProperties.
Import JS Notions ContextManager.

Lemma length_append (a b : string) :
  String.length (a ++ b) = String.length a + String.length b.
Proof. induction a as [|c a IH]; simpl; [reflexivity | now rewrite IH]. Qed.

Lemma inferredTopics_nil_iff (userQuery : string) :
  inferredTopics userQuery = [] <->
  ~ Substring "deployment" userQuery /\ ~ Substring "ML" userQuery.
Proof.
  rewrite inferredTopics_cases, <- !includes_false_iff.
  destruct (includes userQuery "deployment"), (includes userQuery "ML");
    split; try discriminate; try tauto; intros [H1 H2]; discriminate.
Qed.

(** X10.  For every query the Context Manager completes, and it enables
    live search exactly when neither topic trigger occurs in the query or
    the recency cue [right now] does; otherwise [tools] is [undefined]. *)
Theorem search_tool_enabled_iff (userQuery : string) (out : list console_line) :
  exists prompt out',
    prepareContextualPrompt userQuery out = (Normal prompt, out') /\
    (tools prompt = JArr [JObj [("google_search", JObj [])]] <->
     (~ Substring "deployment" userQuery /\ ~ Substring "ML" userQuery) \/
     Substring "right now" userQuery) /\
    (tools prompt = JUndefined <->
     (Substring "deployment" userQuery \/ Substring "ML" userQuery) /\
     ~ Substring "right now" userQuery).
Proof.
  destruct (inferredTopics userQuery) as [|topic topics] eqn:E.
  - do 2 eexists. split; [now apply prepareContextualPrompt_fallback |].
    cbn [tools]. apply inferredTopics_nil_iff in E. split.
    + split; [now left | reflexivity].
    + split; [discriminate | tauto].
  - assert (H : inferredTopics userQuery <> []) by (rewrite E; discriminate).
    do 2 eexists. split; [now apply prepareContextualPrompt_retrieval |].
    cbn [tools]. pose proof (proj1 (inferredTopics_iff userQuery) H) as Htopic.
    rewrite <- (includes_iff userQuery "right now").
    destruct (includes userQuery "right now"); split.
    + split; [intros _; now right | reflexivity].
    + split; [discriminate | intros [_ H']; now destruct H'].
    + split; [discriminate | intros [[H1 H2] | H']; [tauto | discriminate]].
    + split; [intros _; split; [exact Htopic | discriminate] | reflexivity].
Qed.

(** X11.  The result tells whether context was added: [finalPrompt] is the
    query itself exactly when no topic was inferred from it. *)
Theorem prompt_is_query_iff_no_topic (userQuery : string) (out : list console_line) :
  exists prompt out',
    prepareContextualPrompt userQuery out = (Normal prompt, out') /\
    (finalPrompt prompt = userQuery <->
     ~ Substring "deployment" userQuery /\ ~ Substring "ML" userQuery).
Proof.
  destruct (inferredTopics userQuery) as [|topic topics] eqn:E.
  - do 2 eexists. split; [now apply prepareContextualPrompt_fallback |].
    cbn [finalPrompt]. apply inferredTopics_nil_iff in E. tauto.
  - assert (H : inferredTopics userQuery <> []) by (rewrite E; discriminate).
    do 2 eexists. split; [now apply prepareContextualPrompt_retrieval |].
    cbn [finalPrompt]. rewrite <- inferredTopics_nil_iff.
    split; [| intros H'; contradiction].
    intros Heq. apply (f_equal String.length) in Heq.
    unfold render_template in Heq. rewrite !length_append in Heq.
    assert (Hhead : 0 < String.length template_before_context)
      by (unfold template_before_context, LF; simpl; apply Nat.lt_0_succ).
    lia.
Qed.

(** X12.  Whatever the query, retrieval hands over at most three excerpts,
    each among the first two of the continuous-deployment entry or the
    first two of the machine-learning entry: nothing of the cloud-migration
    entry, and no third excerpt of an entry, is ever retrieved. *)
Theorem retrieval_reaches_two_entries_only (userQuery : string)
    (out : list console_line) :
  exists chunks out',
    mockRetrieveContext (inferredTopics userQuery) userQuery out =
    (Normal {| contextText := join chunk_separator chunks;
               useSearchTool := includes userQuery "right now" |}, out') /\
    length chunks <= 3 /\
    forall chunk, In chunk chunks ->
      exists topic excerpts,
        In topic ["continuous deployment"; "machine learning"] /\
        assoc topic MOCK_DOC_REPO = Some excerpts /\
        In chunk (firstn 2 excerpts).
Proof.
  do 2 eexists. split; [apply mockRetrieveContext_run |].
  rewrite inferredTopics_cases.
  destruct (includes userQuery "deployment"), (includes userQuery "ML");
    (split; [simpl; repeat constructor |]); intros chunk Hin; simpl in Hin;
    repeat (destruct Hin as [<- | Hin];
            [first [ exists "continuous deployment"; eexists;
                     split; [simpl; tauto |]; split; [reflexivity |];
                     simpl; tauto
                   | exists "machine learning"; eexists;
                     split; [simpl; tauto |]; split; [reflexivity |];
                     simpl; tauto ] |]);
    destruct Hin.
Qed.

Lemma retrieve_chunks_throws (topics chunks : list string) :
  (exists topic, In topic topics /\
                 assoc (toLowerCase topic) MOCK_DOC_REPO = None /\
                 In (toLowerCase topic) object_prototype_members) ->
  retrieve_chunks topics chunks =
  Throw (TypeError "sourceData.slice is not a function").
Proof.
  revert chunks; induction topics as [|topic topics IH]; intros chunks;
    intros (bad & Hin & Hown & Hproto); [destruct Hin |].
  simpl. unfold get.
  destruct Hin as [-> | Hin].
  - rewrite Hown.
    replace (existsb (String.eqb (toLowerCase bad)) object_prototype_members)
      with true; [reflexivity |].
    symmetry. apply existsb_exists. exists (toLowerCase bad).
    split; [exact Hproto | apply String.eqb_refl].
  - destruct (assoc (toLowerCase topic) MOCK_DOC_REPO).
    + apply IH. now exists bad.
    + destruct (existsb _ _); [reflexivity |]. apply IH. now exists bad.
Qed.

(** X13.  Retrieval over any list of topics: a topic without an entry in
    the table contributes nothing, but a topic whose lower-case name is a
    member every object inherits (such as [constructor]) makes retrieval
    throw; retrieval completes exactly when no topic is of that kind. *)
Theorem retrieval_completes_unless_inherited (topics : list string)
    (initialQuery : string) (out : list console_line) :
  ((forall topic, In topic topics ->
      ~ In (toLowerCase topic) object_prototype_members) ->
   exists out',
     mockRetrieveContext topics initialQuery out =
     (Normal {| contextText :=
                  join chunk_separator (flat_map excerpts_for topics);
                useSearchTool := includes initialQuery "right now" |}, out'))
  /\
  ((exists topic, In topic topics /\
                  In (toLowerCase topic) object_prototype_members) ->
   fst (mockRetrieveContext topics initialQuery out) =
   Throw (TypeError "sourceData.slice is not a function")).
Proof.
  split.
  - intros Hsafe. unfold mockRetrieveContext, bind, lift, ret, console_log.
    rewrite retrieve_chunks_flat_map.
    + cbn [app]. destruct (includes initialQuery "right now"); eauto.
    + intros topic Hin. specialize (Hsafe topic Hin).
      destruct (existsb _ _) eqn:E; [| reflexivity].
      apply existsb_exists in E as (member & Hm & Heq%String.eqb_eq).
      subst member. contradiction.
  - intros (topic & Hin & Hproto).
    unfold mockRetrieveContext, bind, lift, ret, console_log.
    rewrite retrieve_chunks_throws; [reflexivity |].
    exists topic. repeat split; try assumption.
    destruct (assoc (toLowerCase topic) MOCK_DOC_REPO) as [excerpts|] eqn:E;
      [| reflexivity].
    exfalso. apply assoc_In in E. simpl in E, Hproto.
    repeat (destruct E as [[= E _] | E];
            [rewrite <- E in Hproto; simpl in Hproto;
             intuition discriminate |]).
    destruct E.
Qed.

End ContextManagerProperties.

(* ================================================================== *)
(** * Further properties: the route *)
(* ================================================================== *)

Section RouteProperties.
Import JS Notions Server ContextManager Route.

Variable connectorRules : list (string * list string).
Variable chat_completions_create : string -> completion js_value.
Variable JSON_parse : string -> completion js_value.

#[local] Abbreviation analyzeIntent :=
  (analyzeIntent connectorRules chat_completions_create JSON_parse).
#[local] Abbreviation mcp_query :=
  (mcp_query connectorRules chat_completions_create JSON_parse).

(** The response of the route, path by path. *)
Lemma mcp_query_response (body : js_value) (out : list server_line) :
  fst (mcp_query body out) =
  match destructure body with
  | Throw err => failure err
  | Normal (user_id, query) =>
      if truthy query then
        match ToString query, query with
        | Throw err, _ => failure err
        | Normal _, JStr text =>
            match fst (analyzeIntent text []) with
            | Throw err => failure err
            | Normal intent =>
                match fetchConnectorContexts intent user_id text with
                | Throw err => failure err
                | Normal results =>
                    match fst (prepareContextualPrompt text []) with
                    | Throw err => failure err
                    | Normal prompt =>
                        match ToString user_id with
                        | Throw err => failure err
                        | Normal user =>
                            {| status := 200;
                               json :=
                                 ResultPayload (finalPrompt prompt)
                                   ("[LLM Response] Answer for user " ++ user
                                    ++ " based on the augmented prompt. Tools enabled: "
                                    ++ (if truthy (tools prompt)
                                        then "google_search" else "None") ++ ".")
                                   {| user_id := user_id;
                                      connectors_analyzed := connectors intent;
                                      tools_enabled_by_context_manager :=
                                        if truthy (tools prompt)
                                        then "google_search" else "None";
                                      mcp_sources := results |} |}
                        end
                    end
                end
            end
        | Normal _, _ => failure (TypeError "query.toLowerCase is not a function")
        end
      else {| status := 400; json := ErrorPayload "Missing query text" |}
  end.
Proof.
  unfold Route.mcp_query, handle, callLLMApi, srv_bind, srv_lift, srv_ret,
    srv_log, srv_run, failure.
  destruct (destructure body) as [[user_id query]|err]; [| reflexivity].
  destruct (truthy query); cbn [negb]; [| reflexivity].
  destruct (ToString query) as [shown|err]; [| reflexivity].
  destruct query; try reflexivity.
  destruct (analyzeIntent s []) as [[intent|err] lines]; [| reflexivity].
  cbn [fst].
  destruct (fetchConnectorContexts intent user_id s) as [results|err];
    [| reflexivity].
  destruct (prepareContextualPrompt s []) as [[prompt|err] plines];
    [| reflexivity].
  cbn [fst].
  destruct (ToString user_id) as [user|err]; reflexivity.
Qed.

(** X14.  A request whose [query] is missing or falsy (absent, [null],
    [false], [0] or the empty string) is answered [400] with
    [Missing query text] before anything is analyzed or written; and no other
    request is answered [400]. *)
Theorem missing_query_is_refused (body : js_value) (out : list server_line) :
  (forall user_id query,
      destructure body = Normal (user_id, query) -> truthy query = false ->
      mcp_query body out =
      ({| status := 400; json := ErrorPayload "Missing query text" |}, out))
  /\
  (status (fst (mcp_query body out)) = 400 ->
   exists user_id query,
     destructure body = Normal (user_id, query) /\ truthy query = false).
Proof.
  split.
  - intros user_id query Hbody Hfalsy.
    unfold Route.mcp_query, handle, srv_bind, srv_lift, srv_ret.
    now rewrite Hbody, Hfalsy.
  - rewrite mcp_query_response.
    destruct (destructure body) as [[user_id query]|err]; [| discriminate].
    destruct (truthy query) eqn:Htruthy; [| intros _; now exists user_id, query].
    destruct (ToString query); [| discriminate].
    destruct query; try discriminate.
    destruct (fst (analyzeIntent s [])) as [intent|]; [| discriminate].
    destruct (fetchConnectorContexts intent user_id s); [| discriminate].
    destruct (fst (prepareContextualPrompt s [])); [| discriminate].
    destruct (ToString user_id); discriminate.
Qed.

(** What the Context Manager returns for a query, in one expression. *)
Lemma prepareContextualPrompt_result (userQuery : string) (out : list console_line) :
  exists prompt,
    fst (prepareContextualPrompt userQuery out) = Normal prompt /\
    (truthy (tools prompt) = true <->
     (~ Substring "deployment" userQuery /\ ~ Substring "ML" userQuery) \/
     Substring "right now" userQuery).
Proof.
  destruct (inferredTopics userQuery) as [|topic topics] eqn:E.
  - eexists. rewrite prepareContextualPrompt_fallback by exact E.
    split; [reflexivity |]. cbn [tools google_search_tools truthy].
    apply inferredTopics_nil_iff in E. tauto.
  - assert (H : inferredTopics userQuery <> []) by (rewrite E; discriminate).
    eexists. rewrite prepareContextualPrompt_retrieval by exact H.
    split; [reflexivity |]. cbn [tools].
    apply inferredTopics_iff in H.
    rewrite <- (includes_iff userQuery "right now").
    destruct (includes userQuery "right now"); cbn [google_search_tools truthy].
    + tauto.
    + split; [discriminate | intros [[H1 H2] | H']; [tauto | discriminate]].
Qed.


(** A [200] is the end of the one path through the whole handler. *)
Lemma mcp_query_success (body : js_value) (out : list server_line) :
  status (fst (mcp_query body out)) = 200 ->
  exists user_id text intent results prompt user,
    destructure body = Normal (user_id, JStr text) /\
    text <> EmptyString /\
    fst (analyzeIntent text []) = Normal intent /\
    fetchConnectorContexts intent user_id text = Normal results /\
    fst (prepareContextualPrompt text []) = Normal prompt /\
    ToString user_id = Normal user /\
    json (fst (mcp_query body out)) =
    ResultPayload (finalPrompt prompt)
      ("[LLM Response] Answer for user " ++ user
       ++ " based on the augmented prompt. Tools enabled: "
       ++ (if truthy (tools prompt) then "google_search" else "None") ++ ".")
      {| user_id := user_id;
         connectors_analyzed := connectors intent;
         tools_enabled_by_context_manager :=
           if truthy (tools prompt) then "google_search" else "None";
         mcp_sources := results |}.
Proof.
  rewrite mcp_query_response.
  destruct (destructure body) as [[user_id query]|err]; [| discriminate].
  destruct (truthy query) eqn:Htruthy; [| discriminate].
  destruct (ToString query); [| discriminate].
  destruct query as [| | | |text| |]; try discriminate.
  destruct (fst (analyzeIntent text [])) as [intent|] eqn:Ha; [| discriminate].
  destruct (fetchConnectorContexts intent user_id text) as [results|] eqn:Hfetch;
    [| discriminate].
  destruct (fst (prepareContextualPrompt text [])) as [prompt|] eqn:Hp;
    [| discriminate].
  destruct (ToString user_id) as [user|] eqn:Hu; [| discriminate].
  intros _. exists user_id, text, intent, results, prompt, user.
  split; [reflexivity |]. split; [intros ->; discriminate |].
  repeat (split; [reflexivity || assumption |]). reflexivity.
Qed.



(** X18.  In a [200] response the prompt is the Context Manager's, the
    metadata says [google_search] exactly when neither topic trigger occurs
    in the query or [right now] does, and [None] otherwise, and the answer
    text names the caller and repeats that same flag.  The caller is named
    by the identifier itself when it is a string, and by [undefined] when
    the request has none. *)
Theorem successful_response_reports_search_tool (body : js_value)
    (out : list server_line) :
  status (fst (mcp_query body out)) = 200 ->
  exists text prompt user metadata,
    destructure body = Normal (Route.user_id metadata, JStr text) /\
    fst (prepareContextualPrompt text []) = Normal prompt /\
    json (fst (mcp_query body out)) =
    ResultPayload (finalPrompt prompt)
      ("[LLM Response] Answer for user " ++ user
       ++ " based on the augmented prompt. Tools enabled: "
       ++ tools_enabled_by_context_manager metadata ++ ".")
      metadata /\
    (forall name, Route.user_id metadata = JStr name -> user = name) /\
    (Route.user_id metadata = JUndefined -> user = "undefined") /\
    (tools_enabled_by_context_manager metadata = "google_search" <->
     (~ Substring "deployment" text /\ ~ Substring "ML" text) \/
     Substring "right now" text) /\
    (tools_enabled_by_context_manager metadata = "google_search" \/
     tools_enabled_by_context_manager metadata = "None").
Proof.
  intros H. apply mcp_query_success in H
    as (u & text & intent & results & prompt & user
        & Hb & _ & _ & _ & Hp & Hu & Hjson).
  destruct (prepareContextualPrompt_result text []) as (prompt' & Hp' & Htools).
  rewrite Hp in Hp'. injection Hp' as <-.
  exists text, prompt, user.
  exists {| user_id := u;
            connectors_analyzed := connectors intent;
            tools_enabled_by_context_manager :=
              if truthy (tools prompt) then "google_search" else "None";
            mcp_sources := results |}.
  cbn [Route.user_id tools_enabled_by_context_manager].
  split; [exact Hb |]. split; [exact Hp |]. split; [exact Hjson |].
  split; [intros name ->; cbn [ToString] in Hu; congruence |].
  split; [intros ->; cbn [ToString] in Hu; congruence |].
  rewrite <- Htools.
  destruct (truthy (tools prompt)).
  - split; [tauto | now left].
  - split; [split; discriminate | now right].
Qed.

End RouteProperties.

Section RouteIndependence.
Import JS Notions Server ContextManager Route.

(** X15.  A [query] that is truthy but not a string (a number, [true], an
    array, an object) is answered [500]: [analyzeIntent] fails on
    [toLowerCase] before the classifier is called, so the response and the
    console are the same whatever the rule table, the classifier and
    [JSON.parse] are. *)
Theorem non_string_query_fails_before_the_classifier
    (rules rules' : list (string * list string))
    (create create' parse parse' : string -> completion js_value)
    (body user_id query : js_value) (out : list server_line) :
  destructure body = Normal (user_id, query) ->
  truthy query = true ->
  (forall text, query <> JStr text) ->
  status (fst (mcp_query rules create parse body out)) = 500 /\
  mcp_query rules create parse body out = mcp_query rules' create' parse' body out.
Proof.
  intros Hbody Htruthy Hnot. split.
  - rewrite mcp_query_response, Hbody, Htruthy.
    destruct (ToString query); [| reflexivity].
    destruct query; try reflexivity. now destruct (Hnot s).
  - unfold mcp_query, handle, srv_bind, srv_lift, srv_ret, srv_log.
    rewrite Hbody, Htruthy. cbn [negb].
    destruct (ToString query); [| reflexivity].
    destruct query; try reflexivity. now destruct (Hnot s).
Qed.

End RouteIndependence.

(* ================================================================== *)
(** * Further properties: the rule table as loaded *)
(* ================================================================== *)

Section UntypedRules.
Import JS Notions Server Untyped.

Lemma assoc_rules_object (rules : list (string * list string)) (key : string) :
  assoc key (map (fun entry => (fst entry, JArr (map JStr (snd entry)))) rules) =
  match assoc key rules with
  | Some keywords => Some (JArr (map JStr keywords))
  | None => None
  end.
Proof.
  induction rules as [|[k keywords] rules IH]; simpl; [reflexivity |].
  destruct (String.eqb k key); [reflexivity | exact IH].
Qed.

Lemma some_includes_strings (text : string) (keywords : list string) :
  some_includes text (map JStr keywords) =
  Normal (existsb (fun keyword => includes text keyword) keywords).
Proof.
  induction keywords as [|keyword keywords IH]; simpl; [reflexivity |].
  destruct (includes text keyword); [reflexivity | exact IH].
Qed.

Lemma index_keys_none (keys : list string) :
  (forall key, In key keys -> array_index key = None) -> index_keys keys = [].
Proof.
  induction keys as [|key keys IH]; intros H; simpl; [reflexivity |].
  rewrite (H key (or_introl eq_refl)). apply IH. intros k Hk. apply H. now right.
Qed.

Lemma own_keys_plain (fields : list (string * js_value)) :
  (forall key, In key (map fst fields) -> array_index key = None) ->
  own_keys fields = map fst fields.
Proof.
  intros H. unfold own_keys. rewrite (index_keys_none _ H). simpl.
  induction (map fst fields) as [|key keys IH]; simpl; [reflexivity |].
  rewrite (H key (or_introl eq_refl)). f_equal. apply IH.
  intros k Hk. apply H. now right.
Qed.

Lemma filter_connectors_typed (rules : list (string * list string))
    (text : string) (keys : list string) :
  (forall key, In key keys -> In key (map fst rules)) ->
  filter_connectors (rules_object rules) text keys =
  Normal (filter (fun conn => some_keyword_in rules text conn) keys).
Proof.
  induction keys as [|conn keys IH]; intros Hkeys; simpl; [reflexivity |].
  rewrite assoc_rules_object. unfold some_keyword_in at 1.
  destruct (proj1 (assoc_key conn rules) (Hkeys conn (or_introl eq_refl)))
    as [keywords ->].
  cbn [some]. rewrite some_includes_strings.
  rewrite IH by (intros k Hk; apply Hkeys; now right).
  unfold some_keyword_in at 2.
  destruct (proj1 (assoc_key conn rules) (Hkeys conn (or_introl eq_refl)))
    as [keywords' Hk].
  reflexivity.
Qed.

Lemma rules_object_keys (rules : list (string * list string)) :
  map fst (map (fun entry => (fst entry, JArr (map JStr (snd entry)))) rules)
  = map fst rules.
Proof. rewrite map_map. reflexivity. Qed.

(** The analyzer on the object of a table of keyword lists is the analyzer
    of [Server] on the table. *)
Lemma untyped_on_rules_object (rules : list (string * list string)) (query : string) :
  (forall key, In key (map fst rules) -> array_index key = None) ->
  Untyped.ruleBasedAnalyzer (rules_object rules) query =
  Normal (Server.ruleBasedAnalyzer rules query).
Proof.
  intros Hplain. unfold Untyped.ruleBasedAnalyzer, rules_object.
  cbn [Object_keys]. rewrite own_keys_plain by now rewrite rules_object_keys.
  rewrite rules_object_keys.
  fold (rules_object rules).
  rewrite filter_connectors_typed by trivial. reflexivity.
Qed.

Lemma default_keys_plain (key : string) :
  In key (map fst defaultConnectorRules) -> array_index key = None.
Proof. simpl. intuition (subst; reflexivity). Qed.

(** X19.  On a rule table that is an object of arrays of strings, none of
    whose keys is an array index, [ruleBasedAnalyzer] run on the object as
    loaded returns, for every query, what the analyzer on keyword lists
    returns: the connectors in the order of the keys, and the same hint. *)
Theorem untyped_agrees_with_typed (rules : list (string * list string))
    (query : string) :
  (forall key, In key (map fst rules) -> array_index key = None) ->
  Untyped.ruleBasedAnalyzer (rules_object rules) query =
  Normal (Server.ruleBasedAnalyzer rules query).
Proof.
  intros Hplain. unfold Untyped.ruleBasedAnalyzer, rules_object.
  cbn [Object_keys].
  (* [Object.keys] lists the keys as the table has them *)
  rewrite own_keys_plain by now rewrite rules_object_keys.
  rewrite rules_object_keys. fold (rules_object rules).
  (* each entry is an array of strings: [some] and [includes] never throw *)
  rewrite filter_connectors_typed by trivial.
  reflexivity.
Qed.

(** X20.  When [intentRules.json] cannot be read, or its text is not JSON,
    the built-in table is in force: the analyzer then answers every query
    as on the built-in keyword lists. *)
Theorem unreadable_rules_fall_back_to_defaults (readFileSync : completion string)
    (JSON_parse : string -> completion js_value) (query : string) :
  (exists err, readFileSync = Throw err) \/
  (exists text err, readFileSync = Normal text /\ JSON_parse text = Throw err) ->
  snd (loadConnectorRules readFileSync JSON_parse) = UsingDefaults /\
  Untyped.ruleBasedAnalyzer (fst (loadConnectorRules readFileSync JSON_parse)) query =
  Normal (Server.ruleBasedAnalyzer defaultConnectorRules query).
Proof.
  intros Hfail.
  assert (Hload : loadConnectorRules readFileSync JSON_parse =
                  (rules_object defaultConnectorRules, UsingDefaults)).
  { unfold loadConnectorRules.
    destruct Hfail as [[err ->] | (text & err & -> & ->)]; reflexivity. }
  rewrite Hload. split; [reflexivity |].
  apply untyped_on_rules_object, default_keys_plain.
Qed.

Lemma insert_index_In (entry other : N * string) (sorted : list (N * string)) :
  In other (insert_index entry sorted) <-> other = entry \/ In other sorted.
Proof.
  induction sorted as [|first rest IH]; simpl.
  - intuition congruence.
  - destruct (fst entry <=? fst first)%N; simpl; [intuition congruence |].
    rewrite IH. intuition congruence.
Qed.

Lemma index_keys_In (keys : list string) (key : string) (n : N) :
  In key keys -> array_index key = Some n -> In (n, key) (index_keys keys).
Proof.
  induction keys as [|k keys IH]; simpl; [tauto |].
  intros [-> | Hin] Hindex.
  - rewrite Hindex. apply insert_index_In. now left.
  - destruct (array_index k); [apply insert_index_In; right |]; now apply IH.
Qed.

(** Every key of an object is among those [Object.keys] lists. *)
Lemma own_keys_In (fields : list (string * js_value)) (key : string) :
  In key (map fst fields) -> In key (own_keys fields).
Proof.
  intros Hin. unfold own_keys. apply in_or_app.
  destruct (array_index key) as [n|] eqn:Hindex.
  - left. apply in_map_iff. exists (n, key). split; [reflexivity |].
    now apply index_keys_In.
  - right. apply filter_In. now rewrite Hindex.
Qed.

Lemma filter_connectors_throws (connectorRules : js_value) (text conn : string)
    (keys : list string) :
  In conn keys ->
  (exists err, some text (own_property connectorRules conn) = Throw err) ->
  exists err, filter_connectors connectorRules text keys = Throw err.
Proof.
  intros Hin [err Hbad]. induction keys as [|k keys IH]; [destruct Hin |].
  simpl. destruct (some text (own_property connectorRules k)) as [hit|e] eqn:Hk;
    [| now exists e].
  destruct Hin as [-> | Hin]; [congruence |].
  destruct (IH Hin) as [e ->]. now exists e.
Qed.

(** X21.  A rules file that parses is kept as it is, and loading reports
    success.  If it holds [null], or an object with an entry that is not an
    array, the analyzer then throws for every query, whatever the query
    says. *)
Theorem ill_typed_rules_fail_every_query (readFileSync : completion string)
    (JSON_parse : string -> completion js_value) (text : string)
    (parsed : js_value) :
  readFileSync = Normal text ->
  JSON_parse text = Normal parsed ->
  parsed = JNull \/
  (exists fields conn entry,
      parsed = JObj fields /\ assoc conn fields = Some entry /\
      forall keywords, entry <> JArr keywords) ->
  loadConnectorRules readFileSync JSON_parse = (parsed, RulesLoaded) /\
  forall query,
    exists err,
      Untyped.ruleBasedAnalyzer (fst (loadConnectorRules readFileSync JSON_parse))
                                query = Throw err.
Proof.
  intros Hread Hparse Hbad.
  assert (Hload : loadConnectorRules readFileSync JSON_parse = (parsed, RulesLoaded))
    by (unfold loadConnectorRules; now rewrite Hread, Hparse).
  rewrite Hload. split; [reflexivity |]. intros query. cbn [fst].
  destruct Hbad as [-> | (fields & conn & entry & -> & Hentry & Hnot)].
  - eexists. reflexivity.
  - unfold Untyped.ruleBasedAnalyzer. cbn [Object_keys].
    destruct (filter_connectors_throws (JObj fields) (toLowerCase query) conn
                (own_keys fields)) as [err ->].
    + apply own_keys_In, assoc_key. now exists entry.
    + cbn [own_property]. rewrite Hentry.
      destruct entry; cbn [some]; eauto. now destruct (Hnot items).
    + now exists err.
Qed.

End UntypedRules.

Section UntypedResolver.
Import JS Notions Server Untyped.

Variable connectorRules : js_value.
Variable chat_completions_create : string -> completion js_value.
Variable JSON_parse : string -> completion js_value.

#[local] Abbreviation analyzeIntent :=
  (Untyped.analyzeIntent connectorRules chat_completions_create JSON_parse).
#[local] Abbreviation classified :=
  (classified chat_completions_create JSON_parse).

(** Only a string passes the first statement of the analyzer. *)
Lemma ruleBasedAnalyzer_of_non_string (query : js_value) :
  (forall text, query <> JStr text) ->
  exists error, ruleBasedAnalyzer_of connectorRules query = Throw error.
Proof.
  intros Hnot. destruct query; cbn [ruleBasedAnalyzer_of]; eauto.
  now destruct (Hnot s).
Qed.

(** The resolver on a string query, path by path. *)
Lemma untyped_analyzeIntent_run (text : string) (out : list console_line) :
  analyzeIntent (JStr text) out =
  match Untyped.ruleBasedAnalyzer connectorRules text with
  | Throw error => (Throw error, out)
  | Normal ruleResult =>
      match classified text with
      | Throw error =>
          (Normal {| connectors := new_Set (map JStr (connectors ruleResult));
                     timeHint := timeHint ruleResult |},
           (out ++ [Error ("LLM analyzer error: " ++ message_of error)])%list)
      | Normal parsed =>
          match spread parsed with
          | Throw error => (Throw error, out)
          | Normal llmItems =>
              (Normal {| connectors :=
                           new_Set (map JStr (connectors ruleResult) ++ llmItems)%list;
                         timeHint := timeHint ruleResult |}, out)
          end
      end
  end.
Proof.
  unfold Untyped.analyzeIntent, bind, lift, ret. cbn [ruleBasedAnalyzer_of].
  destruct (Untyped.ruleBasedAnalyzer connectorRules text) as [ruleResult|error];
    [| reflexivity].
  rewrite llmAnalyzer_run.
  destruct (Notions.classified chat_completions_create JSON_parse text)
    as [parsed|error].
  - destruct (spread parsed); reflexivity.
  - cbn [spread]. now rewrite app_nil_r.
Qed.

(** X5.  The Hybrid Intent Resolver, run on the rule table as loaded and on
    whatever query it is passed, rejects in exactly three cases: the query is
    not a string; the Rule-Based Analyzer throws on the table; or the
    classifier's reply parsed, and to a value that is neither an array nor a
    string.  A failed classification is none of them.  A rejection writes
    nothing to the console. *)
Theorem resolver_rejects_in_three_cases (query : js_value)
    (out : list console_line) :
  ((exists error, fst (analyzeIntent query out) = Throw error) <->
   (forall text, query <> JStr text)
   \/
   (exists text error,
       query = JStr text /\
       Untyped.ruleBasedAnalyzer connectorRules text = Throw error)
   \/
   (exists text ruleResult parsed,
       query = JStr text /\
       Untyped.ruleBasedAnalyzer connectorRules text = Normal ruleResult /\
       classified text = Normal parsed /\
       (forall items, parsed <> JArr items) /\ (forall s, parsed <> JStr s)))
  /\
  (forall error,
      fst (analyzeIntent query out) = Throw error ->
      snd (analyzeIntent query out) = out).
Proof.
  destruct query as [| | | |text| |];
    try (split;
         [ split;
           [ intros _; left; intros text; discriminate
           | intros _; eexists; reflexivity ]
         | intros error _; reflexivity ]).
  rewrite untyped_analyzeIntent_run.
  destruct (Untyped.ruleBasedAnalyzer connectorRules text) as [ruleResult|error]
    eqn:Hrule.
  - destruct (Notions.classified chat_completions_create JSON_parse text)
      as [parsed|failure] eqn:Hreply.
    + destruct (spread parsed) as [llmItems|error] eqn:Hspread; cbn [fst snd].
      * split; [| discriminate]. split; [intros [error H]; discriminate |].
        intros [Hnot | [(t & e & [= <-] & H)
                       | (t & r & p & [= <-] & _ & Hp & Harr & Hstr)]].
        -- now destruct (Hnot text).
        -- congruence.
        -- assert (p = parsed) by congruence. subst p.
           destruct parsed; try discriminate.
           ++ now destruct (Hstr s).
           ++ now destruct (Harr items).
      * split; [| reflexivity]. split; [| intros _; now exists error].
        intros _. right. right. exists text, ruleResult, parsed.
        split; [reflexivity |]. split; [exact Hrule |]. split; [exact Hreply |].
        split; intros x ->; discriminate.
    + cbn [fst snd]. split; [| discriminate].
      split; [intros [error H]; discriminate |].
      intros [Hnot | [(t & e & [= <-] & H) | (t & r & p & [= <-] & _ & Hp & _)]].
      * now destruct (Hnot text).
      * congruence.
      * congruence.
  - cbn [fst snd]. split; [| reflexivity].
    split; [| intros _; now exists error].
    intros _. right. left. now exists text, error.
Qed.

End UntypedResolver.

Section RouteConsole.
Import JS Notions Server ContextManager Route RouteNotions.

Variable connectorRules : list (string * list string).
Variable chat_completions_create : string -> completion js_value.
Variable JSON_parse : string -> completion js_value.

#[local] Abbreviation mcp_query :=
  (mcp_query connectorRules chat_completions_create JSON_parse).

Lemma no_failure_line_app (a b : list server_line) :
  no_failure_line a -> no_failure_line b -> no_failure_line (a ++ b)%list.
Proof. intros Ha Hb err [H | H]%in_app_or; [now apply (Ha err) | now apply (Hb err)]. Qed.

Lemma no_failure_line_inner (lines : list console_line) :
  no_failure_line (map Line lines).
Proof. intros err (line & H & _)%in_map_iff. discriminate. Qed.

Lemma no_failure_line_nil : no_failure_line [].
Proof. intros err []. Qed.

Ltac no_failure :=
  repeat first
    [ apply no_failure_line_nil
    | apply no_failure_line_inner
    | apply no_failure_line_app
    | (intros ? [H | []]; discriminate) ].

(** The console after a path of the handler is the console before it and
    lines that are no failure reports. *)
Ltac console_grows out :=
  eexists; split;
  [ first [ symmetry; apply app_nil_r | rewrite <- ?app_assoc; reflexivity ]
  | no_failure ].

Ltac route_leaf out :=
  cbn [failure];
  lazymatch goal with
  | |- exists lines, snd (_, (?written ++ [ErrorProcessingRequest ?e])%list) = _ /\ _ =>
      let H := fresh "H" in
      let front := fresh "front" in
      assert (H : exists front, written = (out ++ front)%list /\ no_failure_line front)
        by console_grows out;
      let Heq := fresh "Heq" in
      destruct H as (front & Heq & H);
      exists (front ++ [ErrorProcessingRequest e])%list;
      cbn [snd fst status json];
      split; [rewrite app_assoc; now rewrite <- Heq |];
      split; [intros _; exists e, front; now repeat split
             | intros H'; now destruct H']
  | |- exists lines, snd (_, ?written) = _ /\ _ =>
      let H := fresh "H" in
      let front := fresh "front" in
      assert (H : exists front, written = (out ++ front)%list /\ no_failure_line front)
        by console_grows out;
      let Heq := fresh "Heq" in
      destruct H as (front & Heq & H);
      exists front; cbn [snd fst status json];
      split; [exact Heq |]; split; [discriminate | intros _; exact H]
  end.

(** X22.  Handling a request only adds to the console, and a failed
    request is reported there exactly when the answer is [500]: the report
    is then the last line written, it holds the error whose message the
    response carries, and no other line is such a report. *)
Theorem every_failure_is_reported_once (body : js_value) (out : list server_line) :
  exists lines,
    snd (mcp_query body out) = (out ++ lines)%list /\
    (status (fst (mcp_query body out)) = 500 ->
     exists err front,
       lines = (front ++ [ErrorProcessingRequest err])%list /\
       json (fst (mcp_query body out)) = ErrorPayload (message_of err) /\
       no_failure_line front) /\
    (status (fst (mcp_query body out)) <> 500 -> no_failure_line lines).
Proof.
  unfold Route.mcp_query, handle, callLLMApi, srv_bind, srv_lift, srv_ret,
    srv_log, srv_run.
  destruct (destructure body) as [[user_id query]|err]; [| route_leaf out].
  destruct (truthy query); cbn [negb]; [| route_leaf out].
  destruct (ToString query) as [shown|err]; [| route_leaf out].
  destruct query; try route_leaf out.
  destruct (analyzeIntent _ _ _ s []) as [[intent|err] lines]; [| route_leaf out].
  destruct (fetchConnectorContexts intent user_id s) as [results|err];
    [| route_leaf out].
  destruct (prepareContextualPrompt s []) as [[prompt|err] plines];
    [| route_leaf out].
  destruct (ToString user_id) as [user|err]; route_leaf out.
Qed.

End RouteConsole.

(* ================================================================== *)
(** * Worked instances of the further properties *)
(* ================================================================== *)

Section Instances.
Import JS Notions Server ContextManager Route Untyped Replies Requests.

Lemma default_keys_NoDup : NoDup (map fst defaultConnectorRules).
Proof. repeat constructor; simpl; intuition discriminate. Qed.

Lemma rule_based_selection_is_sound_witness :
  In "aws_monitor"
     (connectors (Server.ruleBasedAnalyzer defaultConnectorRules "Is AWS up?")) /\
  ((exists keywords keyword,
       assoc "aws_monitor" defaultConnectorRules = Some keywords /\
       In keyword keywords /\ Substring keyword (toLowerCase "Is AWS up?"))
   \/
   ("aws_monitor" = "semantic_search" /\
    forall C' keywords keyword,
      assoc C' defaultConnectorRules = Some keywords -> In keyword keywords ->
      ~ Substring keyword (toLowerCase "Is AWS up?"))).
Proof.
  split; [simpl; tauto |].
  apply (rule_based_selection_is_sound defaultConnectorRules "Is AWS up?"
           "aws_monitor").
  simpl; tauto.
Defined.

Lemma failed_classification_leaves_rule_result_witness :
  NoDup (map fst defaultConnectorRules) /\
  classified (fun _ => Throw (APIError "Connection error.")) JSON_parse_subset
             "Any meeting today?" = Throw (APIError "Connection error.") /\
  Server.analyzeIntent defaultConnectorRules
                (fun _ => Throw (APIError "Connection error.")) JSON_parse_subset
                "Any meeting today?" [] =
  (Normal {| connectors := [JStr "google_calendar"]; timeHint := Some "today" |},
   [Error "LLM analyzer error: Connection error."]).
Proof.
  split; [exact default_keys_NoDup |]. split; [reflexivity |].
  apply (failed_classification_leaves_rule_result defaultConnectorRules
           (fun _ => Throw (APIError "Connection error.")) JSON_parse_subset
           "Any meeting today?" [] (APIError "Connection error.")
           default_keys_NoDup eq_refl).
Defined.

Lemma rule_connectors_come_first_witness :
  NoDup (map fst defaultConnectorRules) /\
  classified (answers (JStr array_text)) JSON_parse_subset
             "Is the server up today?" =
  Normal (JArr [JStr "aws_monitor"; JStr "github_repo"]) /\
  exists added,
    fst (Server.analyzeIntent defaultConnectorRules (answers (JStr array_text))
                       JSON_parse_subset "Is the server up today?" []) =
    Normal {| connectors := (JStr "aws_monitor" :: added)%list;
              timeHint := Some "today" |}.
Proof.
  split; [exact default_keys_NoDup |]. split; [reflexivity |].
  destruct (rule_connectors_come_first defaultConnectorRules
              (answers (JStr array_text)) JSON_parse_subset
              "Is the server up today?" []
              [JStr "aws_monitor"; JStr "github_repo"]
              default_keys_NoDup eq_refl) as (added & Hrun & _).
  exists added. now rewrite Hrun.
Defined.

Lemma non_string_query_fails_before_the_classifier_witness :
  destructure (request (JStr "u1") (JNum 5)) = Normal (JStr "u1", JNum 5) /\
  truthy (JNum 5) = true /\
  (forall text, JNum 5 <> JStr text) /\
  status (fst (mcp_query defaultConnectorRules (answers (JStr array_text))
                         JSON_parse_subset (request (JStr "u1") (JNum 5)) [])) = 500.
Proof.
  split; [reflexivity |]. split; [reflexivity |]. split; [discriminate |].
  apply (non_string_query_fails_before_the_classifier
           defaultConnectorRules [] (answers (JStr array_text))
           (answers JNull) JSON_parse_subset JSON_parse_subset
           (request (JStr "u1") (JNum 5)) (JStr "u1") (JNum 5) []);
    [reflexivity | reflexivity | discriminate].
Defined.



Lemma successful_response_reports_search_tool_witness :
  status (fst (mcp_query defaultConnectorRules (answers (JStr array_text))
                         JSON_parse_subset
                         (request (JStr "u1") (JStr "aws status")) [])) = 200 /\
  exists prompt_text flag metadata,
    json (fst (mcp_query defaultConnectorRules (answers (JStr array_text))
                         JSON_parse_subset
                         (request (JStr "u1") (JStr "aws status")) [])) =
    ResultPayload prompt_text
      ("[LLM Response] Answer for user u1"
       ++ " based on the augmented prompt. Tools enabled: " ++ flag ++ ".")
      metadata /\
    (flag = "google_search" \/ flag = "None").
Proof.
  split; [reflexivity |].
  destruct (successful_response_reports_search_tool defaultConnectorRules
              (answers (JStr array_text)) JSON_parse_subset
              (request (JStr "u1") (JStr "aws status")) [] eq_refl)
    as (text & prompt & user & metadata & Hbody & _ & Hjson & Hname & _ & _ & Hflag).
  injection Hbody as Huser _.
  rewrite (Hname "u1" (eq_sym Huser)) in Hjson.
  now exists (finalPrompt prompt), (tools_enabled_by_context_manager metadata),
    metadata.
Defined.

Lemma untyped_agrees_with_typed_witness :
  (forall key, In key (map fst defaultConnectorRules) -> array_index key = None) /\
  Untyped.ruleBasedAnalyzer (rules_object defaultConnectorRules) "Any issue today?" =
  Normal {| connectors := ["github_repo"]; timeHint := Some "today" |}.
Proof.
  split; [exact default_keys_plain |].
  apply (untyped_agrees_with_typed defaultConnectorRules "Any issue today?"
           default_keys_plain).
Defined.

Lemma unreadable_rules_fall_back_to_defaults_witness :
  ((exists err, Normal "not json" = @Throw string err) \/
   (exists text err,
       Normal "not json" = Normal text /\ JSON_parse_subset text = Throw err)) /\
  Untyped.ruleBasedAnalyzer
    (fst (loadConnectorRules (Normal "not json") JSON_parse_subset))
    "Any issue today?" =
  Normal {| connectors := ["github_repo"]; timeHint := Some "today" |}.
Proof.
  assert (H : (exists err, Normal "not json" = @Throw string err) \/
              (exists text err,
                  Normal "not json" = Normal text /\
                  JSON_parse_subset text = Throw err)).
  { right. exists "not json". eexists. split; reflexivity. }
  split; [exact H |].
  apply (unreadable_rules_fall_back_to_defaults (Normal "not json")
           JSON_parse_subset "Any issue today?" H).
Defined.

Lemma ill_typed_rules_fail_every_query_witness :
  JSON_parse_subset "null" = Normal JNull /\
  forall query,
    exists err,
      Untyped.ruleBasedAnalyzer
        (fst (loadConnectorRules (Normal "null") JSON_parse_subset)) query =
      Throw err.
Proof.
  split; [reflexivity |].
  apply (ill_typed_rules_fail_every_query (Normal "null") JSON_parse_subset
           "null" JNull eq_refl eq_refl (or_introl eq_refl)).
Defined.

End Instances.
